(** * coffea-to-cabinetry: the notebook's code cells, embedded and verified

    The notebook defines a coffea processor ([MyProcessor]), a function that
    builds one template histogram per call ([build_single_histogram]), an
    example job over two samples and a loop that prints the histograms.

    Python values are modelled as follows.  An exception is a value of
    [exn] that tells its class and who raised it; a computation that may
    raise is a [result]; a [dict] is an insertion ordered association list;
    the outside world (ntuple files, standard output, the calls received by
    the backend) is threaded explicitly through [IO].

    Numbers are rationals.  An array carries its dtype: integer arithmetic
    wraps around as numpy's does, and a floating-point operation is followed
    only as long as it is exact: where numpy would round, the computation
    ends in [Inexact], the third outcome of a [result] beside a value and an
    exception.  Whatever is stated of a computation that returns [Ok] is
    therefore stated of numbers that the code computes without rounding. *)

From Stdlib Require Import String List Bool Arith ZArith QArith Qround Sorted Lia.
Import ListNotations.
Close Scope Q_scope.

Set Implicit Arguments.

(** ** Python runtime *)

Module Py.

(** An exception, by who raises it.  [ValueError] is the exception of the
    notebook's one [raise] statement; [KeyError] is a dict subscript that
    finds no key; [TypeError] is a call or an [eval] that the interpreter
    refuses.  An exception raised inside numpy, awkward, uproot or coffea is
    a [Library] exception with its class and message, one raised while an
    evaluated expression runs is [Evaluated] with its class, and
    [FailedProcessing] is the [Exception] that coffea raises from the
    exception of a [process] call. *)
Inductive exn : Type :=
| ValueError
| KeyError
| TypeError
| Library (class what : string)
| Evaluated (class : string)
| FailedProcessing (cause : exn).

(** The Python class of an exception. *)
Definition class_of (e : exn) : string :=
  match e with
  | ValueError => "ValueError"
  | KeyError => "KeyError"
  | TypeError => "TypeError"
  | Library class _ => class
  | Evaluated class => class
  | FailedProcessing _ => "Exception"
  end.

Inductive result (A : Type) : Type :=
| Ok (a : A)
| Raise (e : exn)
| Inexact.
Arguments Ok {A} a.
Arguments Raise {A} e.
Arguments Inexact {A}.

Definition bind {A B : Type} (c : result A) (k : A -> result B) : result B :=
  match c with
  | Ok a => k a
  | Raise e => Raise e
  | Inexact => Inexact
  end.

Definition is_ok {A : Type} (c : result A) : bool :=
  match c with Ok _ => true | _ => false end.

(** [for x in xs: s = body(s, x)], stopping at the first exception. *)
Fixpoint for_each {A S : Type} (xs : list A) (body : S -> A -> result S) (s : S)
  : result S :=
  match xs with
  | [] => Ok s
  | x :: xs' => bind (body s x) (for_each xs' body)
  end.

(** [[f(x) for x in xs]] *)
Fixpoint traverse {A B : Type} (f : A -> result B) (xs : list A) : result (list B) :=
  match xs with
  | [] => Ok []
  | x :: xs' => bind (f x) (fun y => bind (traverse f xs') (fun ys => Ok (y :: ys)))
  end.

(** A [dict]: keys in insertion order, no key twice. *)
Definition dict (K V : Type) : Type := list (K * V).

Section Dict.
Context {K V : Type} (eqb : K -> K -> bool).

Fixpoint dict_get (d : dict K V) (k : K) : option V :=
  match d with
  | [] => None
  | (k', v) :: d' => if eqb k' k then Some v else dict_get d' k
  end.

(** [d[k]] *)
Definition getitem (d : dict K V) (k : K) : result V :=
  match dict_get d k with
  | Some v => Ok v
  | None => Raise KeyError
  end.

(** [d[k] = v]: an existing key keeps its place, a new one goes last. *)
Fixpoint setitem (d : dict K V) (k : K) (v : V) : dict K V :=
  match d with
  | [] => [(k, v)]
  | (k', v') :: d' =>
      if eqb k' k then (k', v) :: d' else (k', v') :: setitem d' k v
  end.

Definition keys (d : dict K V) : list K := map fst d.
End Dict.

Definition key2_eqb (a b : string * string) : bool :=
  (fst a =? fst b)%string && (snd a =? snd b)%string.

End Py.
Import Py.

Declare Scope py_scope.
Delimit Scope py_scope with py.
Notation "x <- c ;; k" := (bind c (fun x => k))
  (at level 61, c at next level, right associativity) : py_scope.
Notation "' pat <- c ;; k" := (bind c (fun x => match x with pat => k end))
  (at level 61, pat pattern, c at next level, right associativity) : py_scope.
Open Scope py_scope.

(** ** numpy: numbers and arrays of numbers *)

Module Np.

(** The dtype of an array of numbers: a signed or unsigned integer of some
    width, or a float of 32 or 64 bits. *)
Inductive dtype : Type :=
| Int (bits : positive)
| UInt (bits : positive)
| Float32
| Float64.

Fixpoint odd_part (p : positive) : positive :=
  match p with
  | xO p' => odd_part p'
  | _ => p
  end.

Definition is_power_of_two (p : positive) : bool := (odd_part p =? 1)%positive.

(** A rational is a binary floating-point number of a format when it is
    [m * 2 ^ e] for an integer [m] of at most [precision] bits and an
    exponent [e] of the format: [e >= - emin], and the number has at most
    [width] bits before the point. *)
Definition representable (precision emin width : Z) (q : Q) : bool :=
  let r := Qred q in
  match Qnum r with
  | Z0 => true
  | Zpos n | Zneg n =>
      if (Qden r =? 1)%positive
      then (Z.log2 (Zpos (odd_part n)) <? precision)%Z && (Z.log2 (Zpos n) <? width)%Z
      else is_power_of_two (Qden r) && (Z.log2 (Zpos n) <? precision)%Z
           && (Z.log2 (Zpos (Qden r)) <=? emin)%Z
  end.

Definition is_float32 : Q -> bool := representable 24 149 128.
Definition is_float64 : Q -> bool := representable 53 1074 1024.

Definition integer_of (q : Q) : option Z :=
  let r := Qred q in
  if (Qden r =? 1)%positive then Some (Qnum r) else None.

(** The number is a value of the dtype. *)
Definition fits (dt : dtype) (q : Q) : bool :=
  match dt with
  | Int b =>
      match integer_of q with
      | Some z => (- 2 ^ (Zpos b - 1) <=? z)%Z && (z <? 2 ^ (Zpos b - 1))%Z
      | None => false
      end
  | UInt b =>
      match integer_of q with
      | Some z => (0 <=? z)%Z && (z <? 2 ^ Zpos b)%Z
      | None => false
      end
  | Float32 => is_float32 q
  | Float64 => is_float64 q
  end.

(** A result of a float64 operation, as long as it needs no rounding. *)
Definition float64 (q : Q) : result Q := if is_float64 q then Ok q else Inexact.

(** [x + y] on float64. *)
Definition add (x y : Q) : result Q := float64 (x + y).

(** What an integer becomes in an integer dtype: the low bits, in two's
    complement for a signed dtype. *)
Definition wrap (dt : dtype) (z : Z) : Z :=
  match dt with
  | Int b => ((z + 2 ^ (Zpos b - 1)) mod 2 ^ Zpos b - 2 ^ (Zpos b - 1))%Z
  | UInt b => (z mod 2 ^ Zpos b)%Z
  | Float32 | Float64 => z
  end.

(** [x ** 2] in the dtype of [x]: an integer square wraps around, a float
    square is followed when it is exact. *)
Definition square (dt : dtype) (x : Q) : result Q :=
  if negb (fits dt x) then Inexact
  else
    match dt with
    | Int _ | UInt _ =>
        match integer_of x with
        | Some z => Ok (inject_Z (wrap dt (z * z)))
        | None => Inexact
        end
    | Float32 => if is_float32 (x * x) then Ok (x * x)%Q else Inexact
    | Float64 => float64 (x * x)
    end.

Definition zeros (n : nat) : list Q := repeat 0%Q n.
Definition ones (n : nat) : list Q := repeat 1%Q n.

(** [a += b] on float64 arrays of one shape. *)
Fixpoint iadd (a b : list Q) : result (list Q) :=
  match a, b with
  | [], [] => Ok []
  | x :: a', y :: b' => s <- add x y ;; rest <- iadd a' b' ;; Ok (s :: rest)
  | _, _ => Raise (Library "ValueError" "operands could not be broadcast together")
  end.

(** The weights whose index is [i], added one after the other to [acc]. *)
Fixpoint sum_at (acc : Q) (i : nat) (xy : list nat) (weights : list Q) : result Q :=
  match xy, weights with
  | j :: xy', w :: weights' =>
      if (j =? i)%nat then acc' <- add acc w ;; sum_at acc' i xy' weights'
      else sum_at acc i xy' weights'
  | _, _ => Ok acc
  end.

(** [np.bincount(xy, weights=weights, minlength=n)] for indices below [n]:
    every bin starts at 0.0 and receives its weights in the order of the
    input. *)
Definition bincount (xy : list nat) (weights : list Q) (n : nat) : result (list Q) :=
  if negb (length weights =? length xy)%nat then
    Raise (Library "ValueError" "The weights and list don't have the same length.")
  else traverse (fun i => sum_at 0 i xy weights) (seq 0 n).

(** Python's [a[1:-2]]. *)
Definition slice_1_m2 {A : Type} (a : list A) : list A :=
  firstn (length a - 2 - 1) (skipn 1 a).

(** [all(a == b)] *)
Fixpoint array_equal (a b : list Q) : bool :=
  match a, b with
  | [], [] => true
  | x :: a', y :: b' => Qeq_bool x y && array_equal a' b'
  | _, _ => false
  end.

(** [all(np.sort(a) == a)] *)
Fixpoint sorted (a : list Q) : bool :=
  match a with
  | x :: (y :: _) as a' => Qle_bool x y && sorted a'
  | _ => true
  end.

End Np.

(** ** Arrays of one entry per event *)

(** What an expression over the branches evaluates to: a boolean array or an
    array of numbers of some dtype. *)
Inductive Value : Type :=
| Mask (m : list bool)
| Column (dt : Np.dtype) (c : list Q).

Definition len (v : Value) : nat :=
  match v with Mask m => length m | Column _ c => length c end.

(** The numbers of an array, True as 1 and False as 0. *)
Definition numbers (v : Value) : list Q :=
  match v with
  | Mask m => map (fun b : bool => if b then 1%Q else 0%Q) m
  | Column _ c => c
  end.

(** numpy's conversion of an array to float64. *)
Definition as_float (v : Value) : result (list Q) :=
  match v with
  | Mask m => Ok (numbers v)
  | Column dt c =>
      traverse (fun x => if Np.fits dt x then Np.float64 x else Inexact) c
  end.

(** [v ** 2]: elementwise, in the dtype of [v]; booleans become int8. *)
Definition squared (v : Value) : result Value :=
  match v with
  | Mask m => Ok (Column (Np.Int 8) (numbers v))
  | Column dt c => c' <- traverse (Np.square dt) c ;; Ok (Column dt c')
  end.

(** ** coffea.hist as the notebook uses it

    Every histogram of the notebook has two category axes, "dataset" and
    "template", and one [hist.Bin] axis with explicit bin edges.  For [k]
    edges the dense storage has [k + 2] slots: underflow, the [k - 1] bins,
    overflow and a slot for NaN; [values()] shows the bins only.  The
    notebook passes a weight to every [fill], so the sums of squared weights
    are always kept. *)

Module Hist.

(** A [hist.Bin] axis. *)
Record axis : Type := mk_axis {
  ax_name : string;
  ax_label : string;
  ax_edges : list Q
}.

(** [hist.Bin(name, label, n_or_arr)] with a list of edges: the name
    "weight" is refused, the edges become float64, must be sorted, and the
    first of them is read. *)
Definition Bin (name label : string) (n_or_arr : list Q) : result axis :=
  if (name =? "weight")%string then
    Raise (Library "ValueError"
             "Cannot create axis: 'weight' is a reserved keyword for Hist.fill()")
  else
    bins <- traverse Np.float64 n_or_arr ;;
    if negb (Np.sorted bins) then Raise (Library "ValueError" "Binning not sorted!")
    else
      match bins with
      | [] => Raise (Library "IndexError" "index 0 is out of bounds for axis 0 with size 0")
      | _ => Ok (mk_axis name label bins)
      end.

Record t : Type := mk {
  label : string;
  axis_name : string;          (* name of the Bin axis *)
  axis_label : string;
  edges : list Q;
  content : dict (string * string) (list Q * list Q)   (* sumw, sumw2 *)
}.

(** [hist.Hist(label, hist.Cat("dataset", ...), hist.Cat("template", ...),
    bin)] *)
Definition Hist (label : string) (bin : axis) : t :=
  mk label (ax_name bin) (ax_label bin) (ax_edges bin) [].

Definition size (h : t) : nat := length (edges h) + 2.

(** [Bin.index]: [np.searchsorted(edges, x, side="right")], the number of
    edges that are at most [x]. *)
Definition index (edges : list Q) (x : Q) : nat :=
  length (filter (fun e => Qle_bool e x) edges).

Definition identity (h : t) : t :=
  mk (label h) (axis_name h) (axis_label h) (edges h) [].

Definition cell (h : t) (key : string * string) : list Q * list Q :=
  match dict_get key2_eqb (content h) key with
  | Some c => c
  | None => (Np.zeros (size h), Np.zeros (size h))
  end.

Definition with_content (h : t) (c : dict (string * string) (list Q * list Q)) : t :=
  mk (label h) (axis_name h) (axis_label h) (edges h) c.

(** [h.fill(dataset=, template=, weight=, **{variable: observables})]: the
    bin of every observable is looked up, the weights are added to the
    sums of their bins, and their squares, taken in the dtype of the
    weights, to the sums of squares. *)
Definition fill (h : t) (dataset template : string) (weight : Value)
    (variable : string) (observables : Value) : result t :=
  if negb (axis_name h =? variable)%string then
    Raise (Library "ValueError" "Not all axes specified")
  else
    x <- as_float observables ;;
    w <- as_float weight ;;
    counts <- Np.bincount (map (index (edges h)) x) w (size h) ;;
    sumw <- Np.iadd (fst (cell h (dataset, template))) counts ;;
    weight2 <- squared weight ;;
    w2 <- as_float weight2 ;;
    counts2 <- Np.bincount (map (index (edges h)) x) w2 (size h) ;;
    sumw2 <- Np.iadd (snd (cell h (dataset, template))) counts2 ;;
    Ok (with_content h (setitem key2_eqb (content h) (dataset, template) (sumw, sumw2))).

(** [h.values(sumw2=True)] *)
Definition values (h : t) : dict (string * string) (list Q * list Q) :=
  map (fun kv => (fst kv, (Np.slice_1_m2 (fst (snd kv)), Np.slice_1_m2 (snd (snd kv)))))
      (content h).

Definition compatible (h other : t) : bool :=
  (axis_name h =? axis_name other)%string && Np.array_equal (edges h) (edges other).

(** One step of [h += other]: an entry that [h] lacks is copied from
    [other], one that it has is added to. *)
Definition add_entry (acc : t) (kv : (string * string) * (list Q * list Q)) : result t :=
  entry <- match dict_get key2_eqb (content acc) (fst kv) with
           | Some mine =>
               sumw2 <- Np.iadd (snd mine) (snd (snd kv)) ;;
               sumw <- Np.iadd (fst mine) (fst (snd kv)) ;;
               Ok (sumw, sumw2)
           | None => Ok (snd kv)
           end ;;
  Ok (with_content acc (setitem key2_eqb (content acc) (fst kv) entry)).

(** [h += other] *)
Definition add (h other : t) : result t :=
  if negb (compatible h other) then
    Raise (Library "ValueError"
             "Cannot add this histogram with histogram of dissimilar dimensions")
  else for_each (content other) add_entry h.

End Hist.

(** ** processor.dict_accumulator *)

Definition Accumulator : Type := dict string Hist.t.

Module Acc.

Definition identity (a : Accumulator) : Accumulator :=
  map (fun kv => (fst kv, Hist.identity (snd kv))) a.

(** [a.update({key: h})] *)
Definition update (a : Accumulator) (key : string) (h : Hist.t) : Accumulator :=
  setitem String.eqb a key h.

(** [a += other] *)
Definition add (a other : Accumulator) : result Accumulator :=
  for_each other
    (fun acc kv =>
       let mine := match dict_get String.eqb acc (fst kv) with
                   | Some h => h
                   | None => Hist.identity (snd kv)
                   end in
       h <- Hist.add mine (snd kv) ;;
       Ok (setitem String.eqb acc (fst kv) h))
    a.

(** [a + other]: a new accumulator, [a] and then [other] added to the
    identity of [a]. *)
Definition plus (a other : Accumulator) : result Accumulator :=
  ret <- add (identity a) a ;;
  add ret other.

End Acc.

(** ** Data handed to the processor *)

(** One entry of [channel_info]. *)
Record Channel : Type := {
  channel_name : string;         (* ch["name"] *)
  variable : string;             (* ch["variable"] *)
  observable_label : string;     (* ch["observable_label"] *)
  binning : list Q               (* ch["binning"] *)
}.

(** One entry of a template list of [template_info]. *)
Record Template : Type := {
  template_name : string;               (* template["name"] *)
  weight : option string;               (* template["weight"], None allowed *)
  selection_filter : option string      (* template["selection_filter"] *)
}.

(** One event of a flat ntuple: branch name to value. *)
Definition Row : Type := dict string Q.

(** A chunk of events as the backend hands it to [process]. *)
Record Events : Type := {
  metadata_dataset : string;     (* events.metadata["dataset"] *)
  rows : list Row
}.

(** The positions of the True entries of a boolean array whose first entry
    stands at position [i]. *)
Fixpoint nonzero (i : Z) (m : list bool) : list Q :=
  match m with
  | [] => []
  | b :: m' => if b then inject_Z i :: nonzero (i + 1) m' else nonzero (i + 1) m'
  end.

(** The event at a position given as a number of an integer array; a
    negative position counts from the end. *)
Definition at_position (rs : list Row) (q : Q) : result Row :=
  match Np.integer_of q with
  | Some z =>
      let n := Z.of_nat (length rs) in
      let i := if (z <? 0)%Z then (z + n)%Z else z in
      if ((0 <=? i)%Z && (i <? n)%Z)%bool then
        match nth_error rs (Z.to_nat i) with
        | Some r => Ok r
        | None => Raise (Library "ValueError" "index out of range")
        end
      else Raise (Library "ValueError" "index out of range")
  | None => Inexact
  end.

(** [events[v]]: awkward reads an array as positions of events, a boolean
    array as the positions of its True entries (its length is not looked
    at), and refuses a position that no event has; an array of floats is no
    index. *)
Definition events_getitem (rs : list Row) (v : Value) : result (list Row) :=
  match v with
  | Mask m => traverse (at_position rs) (nonzero 0 m)
  | Column (Np.Int _) c | Column (Np.UInt _) c => traverse (at_position rs) c
  | Column _ _ =>
      Raise (Library "ValueError" "arrays used as an index must be integer or boolean")
  end.

(** ** class MyProcessor *)

Record MyProcessor : Type := {
  _accumulator : Accumulator;
  channel_info : list Channel;
  template_info : dict string (list Template)
}.

(** [MyProcessor.__init__]; each argument is [None] or a value. *)
Definition MyProcessor_init (channel_info : option (list Channel))
    (template_info : option (dict string (list Template))) : result MyProcessor :=
  match channel_info, template_info with
  | Some ci, Some ti =>
      acc <- for_each ci
               (fun acc ch =>
                  bin <- Hist.Bin (variable ch) (observable_label ch) (binning ch) ;;
                  Ok (Acc.update acc (channel_name ch) (Hist.Hist "events" bin)))
               [] ;;
      Ok {| _accumulator := acc; channel_info := ci; template_info := ti |}
  | _, _ => Raise ValueError
  end.

Definition accumulator (self : MyProcessor) : Accumulator := _accumulator self.

Definition postprocess (self : MyProcessor) (accumulator : Accumulator) : Accumulator :=
  accumulator.

(** Names that a variable cannot have in the call
    [out[channel_name].fill(dataset=..., template=..., weight=...,
    **{variable: observables})]: the three keywords the call gives itself
    and the receiver [self] of the bound method.  Python refuses a keyword
    given twice with a TypeError. *)
Definition fill_keywords : list string := ["dataset"; "template"; "weight"; "self"]%string.

(** What the evaluation of a source string gives: a flat array, boolean or
    of numbers, or an exception of some class raised while the expression
    ran.  Expressions with a value of another kind (a single number, a
    slice, a nested array) are not covered. *)
Inductive evaluated : Type :=
| Gives (v : Value)
| Throws (class : string).

Section Process.

(** Python's [eval] of a source string with the branches of an event array
    as local names. *)
Variable eval_expr : string -> list Row -> evaluated.

(** [eval(source, {}, events)]; [eval] of [None] is a TypeError. *)
Definition eval (source : option string) (events : list Row) : result Value :=
  match source with
  | None => Raise TypeError
  | Some s =>
      match eval_expr s events with
      | Gives v => Ok v
      | Throws class => Raise (Evaluated class)
      end
  end.

(** The body of the loop over templates. *)
Definition process_template (events : Events) (ch : Channel) (out : Accumulator)
    (template : Template) : result Accumulator :=
  let dataset := metadata_dataset events in
  let channel_name := channel_name ch in
  let variable := variable ch in
  let template_name := template_name template in
  let selection_filter := selection_filter template in
  mask <- eval selection_filter (rows events) ;;
  events_cut <- events_getitem (rows events) mask ;;
  observables <- eval (Some variable) events_cut ;;
  weights <- match weight template with
             | Some weight_expression => eval (Some weight_expression) events_cut
             | None => Ok (Column Np.Float64 (Np.ones (len observables)))
             end ;;
  h <- getitem String.eqb out channel_name ;;
  if existsb (String.eqb variable) fill_keywords then Raise TypeError
  else
    h' <- Hist.fill h dataset template_name weights variable observables ;;
    Ok (setitem String.eqb out channel_name h').

(** The body of the loop over channels. *)
Definition process_channel (self : MyProcessor) (events : Events)
    (out : Accumulator) (ch : Channel) : result Accumulator :=
  templates <- getitem String.eqb (template_info self) (metadata_dataset events) ;;
  for_each templates (process_template events ch) out.

(** [MyProcessor.process] *)
Definition process (self : MyProcessor) (events : Events) : result Accumulator :=
  let out := Acc.identity (accumulator self) in
  for_each (channel_info self) (process_channel self events) out.

End Process.

(** ** The backend: processor.run_uproot_job *)

(** One entry of a fileset: [{"treename": ..., "files": [...]}]. *)
Record FilesetEntry : Type := {
  treename : string;
  files : list string
}.

Definition Fileset : Type := dict string FilesetEntry.

(** An executor receives the work items, the function to run on each and
    the accumulator to start from, which the backend leaves out ([None]);
    it gives back [None] when no item gave an output. *)
Definition Executor : Type :=
  list Events -> (Events -> result Accumulator) -> option Accumulator ->
  result (option Accumulator).

(** [processor.iterative_executor]: the outputs are taken one after the
    other; the first is the start when no accumulator is given, the second
    makes a new accumulator with it ([+]), every further one is added in
    place ([+=]). *)
Definition iterative_executor : Executor :=
  fun items function accumulator =>
    match accumulator, items with
    | _, [] => Ok accumulator
    | Some accum, _ =>
        accum' <- for_each items
                    (fun acc item => out <- function item ;; Acc.add acc out) accum ;;
        Ok (Some accum')
    | None, first :: rest =>
        accum <- function first ;;
        match rest with
        | [] => Ok (Some accum)
        | second :: rest' =>
            out <- function second ;;
            accum' <- Acc.plus accum out ;;
            accum'' <- for_each rest'
                         (fun acc item => out <- function item ;; Acc.add acc out)
                         accum' ;;
            Ok (Some accum'')
        end
    end.

Inductive Schema : Type := BaseSchema | NanoAODSchema.

Record ExecutorArgs : Type := { schema : Schema }.

(** The arguments of one call of [processor.run_uproot_job]. *)
Record Job : Type := {
  job_fileset : Fileset;
  job_treename : option string;
  job_processor_instance : MyProcessor;
  job_executor : Executor;
  job_executor_args : ExecutorArgs
}.

(** The chunks a stored tree is cut into: the first and the further ones. *)
Definition Chunks : Type := (list Row * list (list Row))%type.

(** The world outside the interpreter: the trees stored in files, keyed by
    (path, tree name) and already cut into chunks of events; the lines on
    standard output so far; and the jobs the backend has been asked to
    run. *)
Record World : Type := {
  storage : dict (string * string) Chunks;
  stdout : list string;
  submitted : list Job
}.

(** A computation that may raise and may act on the world. *)
Definition IO (A : Type) : Type := World -> World * result A.

Definition io_ret {A : Type} (a : A) : IO A := fun w => (w, Ok a).

Definition io_lift {A : Type} (c : result A) : IO A := fun w => (w, c).

Definition io_bind {A B : Type} (c : IO A) (k : A -> IO B) : IO B :=
  fun w =>
    match c w with
    | (w', Ok a) => k a w'
    | (w', Raise e) => (w', Raise e)
    | (w', Inexact) => (w', Inexact)
    end.

Notation "x <~ c ;; k" := (io_bind c (fun x => k))
  (at level 61, c at next level, right associativity) : py_scope.

(** [print(line)] *)
Definition print (line : string) : IO unit :=
  fun w =>
    ({| storage := storage w; stdout := stdout w ++ [line]; submitted := submitted w |},
     Ok tt).

(** [for x in xs: body(x)] *)
Fixpoint io_for_each {A : Type} (xs : list A) (body : A -> IO unit) : IO unit :=
  match xs with
  | [] => io_ret tt
  | x :: xs' => io_bind (body x) (fun _ => io_for_each xs' body)
  end.

(** The chunks of every file of one dataset, in the order of its files. *)
Definition dataset_items (store : dict (string * string) Chunks)
    (dataset : string) (entry : FilesetEntry) : result (list Events) :=
  for_each (files entry)
    (fun items file =>
       match dict_get key2_eqb store (file, treename entry) with
       | Some chunks =>
           Ok (items ++
               map (fun rs => {| metadata_dataset := dataset; rows := rs |})
                 (fst chunks :: snd chunks))
       | None =>
           if existsb (fun kv => (fst (fst kv) =? file)%string) store then
             Raise (Library "KeyInFileError" "not found")
           else Raise (Library "FileNotFoundError" "file not found")
       end)
    [].

(** The work items of a fileset, dataset by dataset. *)
Definition work_items (store : dict (string * string) Chunks)
    (fileset : Fileset) : result (list Events) :=
  for_each fileset
    (fun items kv =>
       more <- dataset_items store (fst kv) (snd kv) ;; Ok (items ++ more))
    [].

(** What the backend makes of an exception that leaves [process]. *)
Definition work_function (function : Events -> result Accumulator) (item : Events)
    : result Accumulator :=
  match function item with
  | Raise e => Raise (FailedProcessing e)
  | r => r
  end.

Section Notebook.

Variable eval_expr : string -> list Row -> evaluated.

(** What the backend does to the stored trees and to standard output while
    it runs a job: the progress it displays, and whatever else the
    installed version does. *)
Variable backend_effect : Job -> World -> World.

(** [pathlib.Path] and [str] of a path. *)
Variable Path : Type.
Variable str : Path -> string.

(** [np.sqrt] of one number and the text an f-string gives an array. *)
Variable np_sqrt : Q -> Q.
Variable format_array : list Q -> string.

(** What the backend computes for a job: the processor runs on every work
    item, the executor accumulates the outputs, [postprocess] is called on
    the sum and what it returns is dropped.  A job for which no item gave an
    output is refused.  Every fileset entry of the notebook names its tree,
    so the [treename] argument is not consulted. *)
Definition run_job (store : dict (string * string) Chunks) (j : Job)
    : result Accumulator :=
  items <- work_items store (job_fileset j) ;;
  wrapped_out <- job_executor j items
                   (work_function (process eval_expr (job_processor_instance j))) None ;;
  match wrapped_out with
  | None => Raise (Library "ValueError" "No chunks returned results")
  | Some out =>
      let _ := postprocess (job_processor_instance j) out in
      Ok out
  end.

(** [processor.run_uproot_job(fileset, treename, processor_instance,
    executor, executor_args)] *)
Definition run_uproot_job (fileset : Fileset) (treename : option string)
    (processor_instance : MyProcessor) (executor : Executor)
    (executor_args : ExecutorArgs) : IO Accumulator :=
  fun w =>
    let job := {| job_fileset := fileset; job_treename := treename;
                  job_processor_instance := processor_instance;
                  job_executor := executor; job_executor_args := executor_args |} in
    let w' := backend_effect job w in
    ({| storage := storage w'; stdout := stdout w'; submitted := submitted w ++ [job] |},
     run_job (storage w) job).

(** ** build_single_histogram *)

Definition build_single_histogram (ntuple_paths : list Path) (pos_in_file : string)
    (variable : string) (bins : list Q) (weight : option string)
    (selection_filter : option string) : IO (list Q * list Q) :=
  let samples : Fileset :=
    [("generic_name",
      {| treename := pos_in_file; files := map str ntuple_paths |})]%string in
  let template_info :=
    [("generic_name",
      [ {| template_name := "generic_template_name";
           weight := weight;
           selection_filter := selection_filter |} ])]%string in
  let channel_info :=
    [ {| channel_name := "generic_channel_name";
         variable := variable;
         observable_label := "generic_label";
         binning := bins |} ]%string in
  processor_instance <~ io_lift (MyProcessor_init (Some channel_info) (Some template_info)) ;;
  result <~ run_uproot_job samples None processor_instance iterative_executor
              {| schema := BaseSchema |} ;;
  h <~ io_lift (getitem String.eqb result "generic_channel_name"%string) ;;
  yv <~ io_lift (getitem key2_eqb (Hist.values h)
                   ("generic_name", "generic_template_name")%string) ;;
  let '(yields, variance) := yv in
  io_ret (yields, map np_sqrt variance).

(** ** The example cells *)

Definition example_samples : Fileset :=
  [("signal", {| treename := "signal";
                 files := ["../cabinetry/ntuples/prediction.root"] |});
   ("background", {| treename := "background";
                     files := ["../cabinetry/ntuples/prediction.root"] |})]%string.

Definition example_template_info : dict string (list Template) :=
  [("signal",
    [ {| template_name := "nominal"; weight := Some "weight";
         selection_filter := Some "lep_charge == 1" |} ]);
   ("background",
    [ {| template_name := "nominal"; weight := Some "weight";
         selection_filter := Some "lep_charge == 1" |};
      {| template_name := "WeightBasedModeling"; weight := Some "weight_up";
         selection_filter := Some "lep_charge == 1" |} ])]%string.

Definition example_channel_info : list Channel :=
  [ {| channel_name := "Signal_region"; variable := "jet_pt";
       observable_label := "jet $p_T$ [GeV]";
       binning := [200; 300; 400; 500; 600]%Q |} ]%string.

(** The cell that runs coffea on the example. *)
Definition example_run : IO Accumulator :=
  processor_instance <~ io_lift (MyProcessor_init (Some example_channel_info)
                                   (Some example_template_info)) ;;
  run_uproot_job example_samples None processor_instance iterative_executor
    {| schema := BaseSchema |}.

(** The cell that reads the histogram content. *)
Definition read_histograms (channel_info : list Channel)
    (template_info : dict string (list Template)) (result : Accumulator) : IO unit :=
  io_for_each channel_info (fun ch =>
    _ <~ print ("channel " ++ channel_name ch) ;;
    io_for_each (keys template_info) (fun ds =>
      _ <~ print ("  dataset: " ++ ds) ;;
      tems <~ io_lift (getitem String.eqb template_info ds) ;;
      io_for_each tems (fun tem =>
        let template_name := template_name tem in
        _ <~ print ("    template: " ++ template_name) ;;
        h <~ io_lift (getitem String.eqb result (channel_name ch)) ;;
        yv <~ io_lift (getitem key2_eqb (Hist.values h) (ds, template_name)) ;;
        let '(yields, variance) := yv in
        _ <~ print ("      yields: " ++ format_array yields) ;;
        print ("      stdev: " ++ format_array (map np_sqrt variance))))).


End Notebook.

(** ** Vocabulary of the statements *)

(** The yields and the sums of squared weights of one (dataset, template)
    entry as [values(sumw2=True)] shows them; zeros before the first fill. *)
Definition yields (h : Hist.t) (key : string * string) : list Q :=
  Np.slice_1_m2 (fst (Hist.cell h key)).

Definition sumw2 (h : Hist.t) (key : string * string) : list Q :=
  Np.slice_1_m2 (snd (Hist.cell h key)).

(** Bin [b] (counted from 0) holds the values from edge [b] up to, and not
    including, edge [b + 1]. *)
Definition in_bin (edges : list Q) (b : nat) (x : Q) : bool :=
  (Hist.index edges x =? S b)%nat.

Definition count_in_bin (edges : list Q) (b : nat) (xs : list Q) : nat :=
  length (filter (in_bin edges b) xs).

Definition total (xs : list Q) : Q := fold_right Qplus 0%Q xs.

(** Every stored array of a histogram has one slot per index of the axis. *)
Definition well_shaped (h : Hist.t) : Prop :=
  forall key c, dict_get key2_eqb (Hist.content h) key = Some c ->
    length (fst c) = Hist.size h /\ length (snd c) = Hist.size h.

(** Number of histogram-building instructions a job carries: one for each
    template of each dataset, in each channel. *)
Definition job_instructions (j : Job) : nat :=
  length (channel_info (job_processor_instance j)) *
  length (concat (map snd (template_info (job_processor_instance j)))).

(** The values of the observable and the weights of the selected events of
    one chunk, for a channel and a template. *)
Definition template_arrays (eval_expr : string -> list Row -> evaluated)
    (events : Events) (ch : Channel) (t : Template) : result (list Q * list Q) :=
  mask <- eval eval_expr (selection_filter t) (rows events) ;;
  selected <- events_getitem (rows events) mask ;;
  observables <- eval eval_expr (Some (variable ch)) selected ;;
  weights <- match weight t with
             | Some expression => eval eval_expr (Some expression) selected
             | None => Ok (Column Np.Float64 (Np.ones (len observables)))
             end ;;
  x <- as_float observables ;;
  w <- as_float weights ;;
  Ok (x, w).

(** The empty histogram the constructor makes for a channel. *)
Definition channel_histogram (ch : Channel) : Hist.t :=
  Hist.mk "events" (variable ch) (observable_label ch) (binning ch) [].

(** The processor and the job that [build_single_histogram] hands to the
    backend, written out. *)
Definition single_histogram_processor (variable : string) (bins : list Q)
    (weight selection_filter : option string) : MyProcessor :=
  {| _accumulator :=
       [("generic_channel_name",
         Hist.mk "events" variable "generic_label" bins [])]%string;
     channel_info :=
       [ {| channel_name := "generic_channel_name"; variable := variable;
            observable_label := "generic_label"; binning := bins |} ]%string;
     template_info :=
       [("generic_name",
         [ {| template_name := "generic_template_name"; weight := weight;
              selection_filter := selection_filter |} ])]%string |}.

Definition single_histogram_job (files : list string) (pos_in_file variable : string)
    (bins : list Q) (weight selection_filter : option string) : Job :=
  {| job_fileset :=
       [("generic_name", {| treename := pos_in_file; files := files |})]%string;
     job_treename := None;
     job_processor_instance :=
       single_histogram_processor variable bins weight selection_filter;
     job_executor := iterative_executor;
     job_executor_args := {| schema := BaseSchema |} |}.

(** The job of the example cell. *)
Definition example_job : Job :=
  {| job_fileset := example_samples;
     job_treename := None;
     job_processor_instance :=
       {| _accumulator :=
            [("Signal_region",
              Hist.mk "events" "jet_pt" "jet $p_T$ [GeV]"
                [200; 300; 400; 500; 600]%Q [])]%string;
          channel_info := example_channel_info;
          template_info := example_template_info |};
     job_executor := iterative_executor;
     job_executor_args := {| schema := BaseSchema |} |}.

(** In the spec's words (C1, as stated): no job carries more than one
    histogram-building instruction. *)
Definition one_instruction_per_job (w : World) : Prop :=
  forall j, In j (submitted w) -> job_instructions j = 1.


(** The last channel of [channel_info] that carries the name. *)
Definition last_channel (name : string) (channel_info : list Channel) : option Channel :=
  find (fun ch => (channel_name ch =? name)%string) (rev channel_info).






(** The weights of the entries with index [i], added up. *)
Definition sum_of_index (i : nat) (xy : list nat) (weights : list Q) : Q :=
  total (map snd (filter (fun jw => (fst jw =? i)%nat) (combine xy weights))).

(** The weights of the values that fall into bin [b], added up. *)
Definition sumw_in_bin (edges : list Q) (b : nat) (xs weights : list Q) : Q :=
  total (map snd (filter (fun xw => in_bin edges b (fst xw)) (combine xs weights))).

(** [weight ** 2] as [fill] hands it to [np.bincount]: squared in the dtype
    of the weights, then taken as float64. *)
Definition squared_weights (weight : Value) : result (list Q) :=
  weight2 <- squared weight ;; as_float weight2.

(** [hist.Bin] accepts the axis of a channel: the variable is not called
    "weight", and the binning is a non-empty list of float64 numbers in
    ascending order. *)
Definition accepts_axis (ch : Channel) : Prop :=
  variable ch <> "weight"%string /\
  Forall (fun e => Np.is_float64 e = true) (binning ch) /\
  StronglySorted Qle (binning ch) /\
  binning ch <> [].

(** The accumulator of a processor made from the channels: one empty
    histogram under each channel name, a later channel replacing an earlier
    one of its name. *)
Definition channel_histograms (ci : list Channel) : Accumulator :=
  fold_left (fun a ch => Acc.update a (channel_name ch) (channel_histogram ch)) ci [].

(** ** The spec's words for a fill *)

(** The events that pass a filter given as a boolean array, one entry per
    event: those whose entry is True. *)
Definition passing (rs : list Row) (m : list bool) : list Row :=
  map fst (filter snd (combine rs m)).

(** The event that an integer names: the position counted from the first
    event, or, for a negative integer, from the last. *)
Definition event_at (rs : list Row) (z : Z) : option Row :=
  if (z <? 0)%Z then nth_error (rev rs) (Z.to_nat (- z - 1))
  else nth_error rs (Z.to_nat z).

(** [selected] are the events that the value of a filter selects: for a
    boolean array that is True at events only the events that pass, for an
    array of integers the events at the positions it names. *)
Inductive selects (rs : list Row) : Value -> list Row -> Prop :=
| selects_mask m :
    (forall i, nth i m false = true -> i < length rs) ->
    selects rs (Mask m) (passing rs m)
| selects_positions dt c selected :
    (exists bits, dt = Np.Int bits \/ dt = Np.UInt bits) ->
    Forall2 (fun q r => exists z, (q == inject_Z z)%Q /\ event_at rs z = Some r)
      c selected ->
    selects rs (Column dt c) selected.

(** [y] is the square of [x] as an array of the dtype holds it: the square
    itself in a float dtype, and in an integer dtype of [bits] bits the one
    integer of the dtype that differs from the square by a multiple of
    [2 ^ bits]. *)
Definition square_in (dt : Np.dtype) (x y : Q) : Prop :=
  match dt with
  | Np.Float32 | Np.Float64 => y = (x * x)%Q
  | Np.Int bits =>
      exists z k : Z,
        (x == inject_Z z)%Q /\ y = inject_Z (z * z + k * 2 ^ Zpos bits)%Z /\
        (- 2 ^ (Zpos bits - 1) <= z * z + k * 2 ^ Zpos bits < 2 ^ (Zpos bits - 1))%Z
  | Np.UInt bits =>
      exists z k : Z,
        (x == inject_Z z)%Q /\ y = inject_Z (z * z + k * 2 ^ Zpos bits)%Z /\
        (0 <= z * z + k * 2 ^ Zpos bits < 2 ^ Zpos bits)%Z
  end.

(** The squares of the weights of a fill, one for one; a boolean squared is
    itself. *)
Definition squares_of (weights : Value) (w2 : list Q) : Prop :=
  match weights with
  | Mask _ => w2 = numbers weights
  | Column dt c => Forall2 (square_in dt) c w2
  end.

(** What one fill takes from a chunk: the selected events, the observable
    and the weight of each of them, and the squared weights. *)
Record Taken : Type := {
  taken_events : list Row;
  taken_x : list Q;
  taken_w : list Q;
  taken_w2 : list Q
}.

(** A fill for a channel and a template takes the events that the
    template's selection filter selects, the channel's variable of these
    events, and the template's weight of these events: 1 for each of them
    when the template has no weight. *)
Definition takes (eval_expr : string -> list Row -> evaluated) (events : Events)
    (ch : Channel) (t : Template) (a : Taken) : Prop :=
  (exists f v,
     selection_filter t = Some f /\ eval_expr f (rows events) = Gives v /\
     selects (rows events) v (taken_events a)) /\
  (exists observables,
     eval_expr (variable ch) (taken_events a) = Gives observables /\
     taken_x a = numbers observables) /\
  match weight t with
  | Some expression =>
      exists weights,
        eval_expr expression (taken_events a) = Gives weights /\
        taken_w a = numbers weights /\
        squares_of weights (taken_w2 a)
  | None =>
      taken_w a = repeat 1%Q (length (taken_x a)) /\
      taken_w2 a = repeat 1%Q (length (taken_x a))
  end.








(** ** Where exceptions come from *)

(** In the spec's words (C3, as stated): the constructor raises an
    exception of class ValueError exactly when one of its two arguments is
    None. *)
Definition ValueError_iff_None : Prop :=
  forall ci ti,
    (exists e, MyProcessor_init ci ti = Raise e /\ class_of e = "ValueError"%string) <->
    ci = None \/ ti = None.

(** The exceptions that can leave [process], by what raises them: a
    subscript on a dict that lacks the key, the interpreter that refuses
    [eval(None)] or a keyword given twice, an expression that is being
    evaluated, or a function of awkward or coffea. *)
Inductive raised_in_process : exn -> Prop :=
| by_subscript : raised_in_process KeyError
| by_interpreter : raised_in_process TypeError
| by_expression class : raised_in_process (Evaluated class)
| by_library class what : raised_in_process (Library class what).

(** The exceptions that can leave a job: one of a function of uproot or
    coffea, or the one that coffea raises from what left [process]. *)
Inductive raised_in_job : exn -> Prop :=
| by_backend class what : raised_in_job (Library class what)
| by_processing cause : raised_in_process cause -> raised_in_job (FailedProcessing cause).

(** The world after the backend has been handed a job: what the backend
    did to the stored trees and to standard output, and the job on
    record. *)
Definition after_job (backend_effect : Job -> World -> World) (job : Job) (w : World)
    : World :=
  {| storage := storage (backend_effect job w);
     stdout := stdout (backend_effect job w);
     submitted := submitted w ++ [job] |}.

(** What [build_single_histogram] reads from the result of its job. *)
Definition read_single (np_sqrt : Q -> Q) (result : result Accumulator)
    : Py.result (list Q * list Q) :=
  out <- result ;;
  h <- getitem String.eqb out "generic_channel_name"%string ;;
  yv <- getitem key2_eqb (Hist.values h)
          ("generic_name", "generic_template_name")%string ;;
  Ok (fst yv, map np_sqrt (snd yv)).

(** The one channel and the one template of a call of
    [build_single_histogram]. *)
Definition single_channel (variable : string) (bins : list Q) : Channel :=
  {| channel_name := "generic_channel_name"; variable := variable;
     observable_label := "generic_label"; binning := bins |}.

Definition single_template (weight selection_filter : option string) : Template :=
  {| template_name := "generic_template_name"; weight := weight;
     selection_filter := selection_filter |}.

(** What the accumulator of a [build_single_histogram] job holds after some
    chunks: one histogram with the axis of the call, with at most the one
    entry of the call, which holds, bin by bin, the sums of the weights and
    of the squared weights of the fills made so far. *)
Definition holds_sums (var : string) (bins : list Q) (acc : Accumulator)
    (fills : list Taken) : Prop :=
  let key := ("generic_name", "generic_template_name")%string in
  exists h,
    acc = [("generic_channel_name"%string, h)] /\
    Hist.identity h = Hist.mk "events" var "generic_label" bins [] /\
    well_shaped h /\
    (Hist.content h = [] \/ exists c, Hist.content h = [(key, c)]) /\
    forall b, S b < length bins ->
      (nth b (yields h key) 0 ==
       total (map (fun a => sumw_in_bin bins b (taken_x a) (taken_w a)) fills))%Q /\
      (nth b (sumw2 h key) 0 ==
       total (map (fun a => sumw_in_bin bins b (taken_x a) (taken_w2 a)) fills))%Q.



(** ** A small world to run the definitions in *)

Module Demo.

(** The column of a branch; an unknown name is a NameError of the
    expression. *)
Fixpoint column (name : string) (rs : list Row) : option (list Q) :=
  match rs with
  | [] => Some []
  | r :: rs' =>
      match dict_get String.eqb r name, column name rs' with
      | Some x, Some c => Some (x :: c)
      | _, _ => None
      end
  end.

(** The dtype of a branch: the lepton charge and the hit count are stored
    as integers, everything else as float64. *)
Definition dtype_of (name : string) : Np.dtype :=
  if (name =? "lep_charge")%string then Np.Int 64
  else if (name =? "hits")%string then Np.Int 32
  else Np.Float64.

(** An evaluator for two kinds of expression: the filter of the example and
    plain branch names. *)
Definition eval_expr (source : string) (rs : list Row) : evaluated :=
  if (source =? "lep_charge == 1")%string then
    match column "lep_charge" rs with
    | Some c => Gives (Mask (map (fun x => Qeq_bool x 1) c))
    | None => Throws "NameError"
    end
  else
    match column source rs with
    | Some c => Gives (Column (dtype_of source) c)
    | None => Throws "NameError"
    end.

Definition event (jet_pt w lep_charge : Q) : Row :=
  [("jet_pt", jet_pt); ("weight", w); ("weight_up", w + 1);
   ("lep_charge", lep_charge); ("hits", 65536 * w); ("dataset", 1)]%string%Q.

(** One tree in one file, cut into two chunks. *)
Definition chunk1 : list Row := [event 250 3 1; event 450 3 1; event 260 5 (-1)]%Q.
Definition chunk2 : list Row := [event 350 1 1; event 270 4 1]%Q.

Definition world : World :=
  {| storage := [(("ntuples/prediction.root", "background"), (chunk1, [chunk2]));
                 (("../cabinetry/ntuples/prediction.root", "signal"), (chunk2, []));
                 (("../cabinetry/ntuples/prediction.root", "background"),
                  (chunk1, [chunk2]))]%string;
     stdout := [];
     submitted := [] |}.

(** A backend that shows two lines of progress and does nothing else. *)
Definition backend_effect (j : Job) (w : World) : World :=
  {| storage := storage w;
     stdout := stdout w ++ ["Preprocessing"; "Processing"]%string;
     submitted := submitted w |}.

Definition str (p : string) : string := p.

(** Stand-ins for the two numpy functions: the integer square root of the
    integer part, which is the square root where the number is the square
    of an integer, and a text that only tells the length. *)
Definition np_sqrt (x : Q) : Q := inject_Z (Z.sqrt (Qfloor x)).
Definition format_array (a : list Q) : string :=
  String.concat " " (map (fun _ => "_"%string) a).

Definition bins : list Q := [200; 300; 400; 500; 600]%Q.

Definition events1 : Events :=
  {| metadata_dataset := "generic_name"; rows := chunk1 |}.

Definition channel : Channel :=
  {| channel_name := "generic_channel_name"; variable := "jet_pt";
     observable_label := "generic_label"; binning := bins |}.

Definition unweighted : Template :=
  {| template_name := "generic_template_name"; weight := None;
     selection_filter := Some "lep_charge == 1"%string |}.





Definition charge_channel : Channel :=
  {| channel_name := "generic_channel_name"; variable := "lep_charge";
     observable_label := "charge"; binning := [-2; 0; 2]%Q |}.

(** A channel whose bins are not in ascending order, and one on a branch
    that is called like a keyword of [fill]. *)
Definition unsorted_channel : Channel :=
  {| channel_name := "generic_channel_name"; variable := "jet_pt";
     observable_label := "generic_label"; binning := [300; 200]%Q |}.

Definition dataset_channel : Channel :=
  {| channel_name := "generic_channel_name"; variable := "dataset";
     observable_label := "generic_label"; binning := [0; 2]%Q |}.

End Demo.

(** * Properties *)

(** ** Loops that may raise *)

Lemma bind_ok {B C : Type} (c : result B) (k : B -> result C) (v : C) :
  bind c k = Ok v -> exists b, c = Ok b /\ k b = Ok v.
Proof.
  destruct c as [b|e|]; simpl; intro H; [exists b; auto | discriminate | discriminate].
Qed.

Lemma bind_raise {B C : Type} (c : result B) (k : B -> result C) (e : exn) :
  bind c k = Raise e -> c = Raise e \/ exists b, c = Ok b /\ k b = Raise e.
Proof.
  destruct c as [b|e'|]; simpl; intro H;
    [right; exists b; auto | left; congruence | discriminate].
Qed.

Section ForEach.
Context {A S : Type}.
Implicit Types (body : S -> A -> result S) (xs ys : list A) (s : S).

Lemma for_each_app body xs ys s :
  for_each (xs ++ ys) body s = bind (for_each xs body s) (for_each ys body).
Proof.
  revert s; induction xs as [|x xs IH]; intro s; simpl; [reflexivity|].
  destruct (body s x) as [s'|e|]; simpl; [apply IH | reflexivity | reflexivity].
Qed.

(** An exception leaving a loop was raised by the body at some element. *)
Lemma for_each_raise body xs s e :
  for_each xs body s = Raise e ->
  exists s' x, In x xs /\ body s' x = Raise e.
Proof.
  revert s; induction xs as [|x xs IH]; intro s; simpl; [discriminate|].
  intro H. apply bind_raise in H as [H | (s1 & H1 & H2)].
  - exists s, x; auto.
  - destruct (IH _ H2) as (s' & y & Hin & Hy). exists s', y; auto.
Qed.

(** A loop that completes has run its body at every element. *)
Lemma for_each_ok_each body xs s s_end :
  for_each xs body s = Ok s_end ->
  forall x, In x xs -> exists s1 s2, body s1 x = Ok s2.
Proof.
  revert s; induction xs as [|x xs IH]; intros s H y Hy; [destruct Hy|].
  simpl in H. apply bind_ok in H as (s1 & H1 & H2).
  destruct Hy as [<- | Hy]; [exists s, s1; exact H1 | eapply IH; eauto].
Qed.

Lemma for_each_ext body body' xs s :
  (forall s' x, In x xs -> body s' x = body' s' x) ->
  for_each xs body s = for_each xs body' s.
Proof.
  revert s; induction xs as [|x xs IH]; intros s H; simpl; [reflexivity|].
  rewrite (H s x) by (left; reflexivity).
  destruct (body' s x); simpl;
    [apply IH; intros; apply H; right; assumption | reflexivity | reflexivity].
Qed.


Lemma for_each_ok_each_inv (P : S -> Prop) body xs s s_end :
  (forall s1 x s2, P s1 -> body s1 x = Ok s2 -> P s2) ->
  P s -> for_each xs body s = Ok s_end ->
  forall x, In x xs -> exists s1 s2, P s1 /\ body s1 x = Ok s2.
Proof.
  intro Hstep. revert s; induction xs as [|x xs IH]; intros s Hs H y Hy; [destruct Hy|].
  simpl in H. apply bind_ok in H as (s1 & H1 & H2).
  destruct Hy as [<- | Hy].
  - exists s, s1; auto.
  - apply (IH s1); [eapply Hstep; eauto | exact H2 | exact Hy].
Qed.


End ForEach.

Lemma for_each_map {A B S : Type} (f : A -> B) (body : S -> B -> result S)
    (xs : list A) (s : S) :
  for_each (map f xs) body s = for_each xs (fun s' x => body s' (f x)) s.
Proof.
  revert s; induction xs as [|x xs IH]; intro s; simpl; [reflexivity|].
  destruct (body s (f x)); simpl; [apply IH | reflexivity | reflexivity].
Qed.

(** A loop inside a loop visits the pairs of [list_prod], in its order. *)
Lemma for_each_nested {A B S : Type} (inner : A -> S -> B -> result S)
    (xs : list A) (ys : list B) (s : S) :
  for_each xs (fun s' x => for_each ys (inner x) s') s =
  for_each (list_prod xs ys) (fun s' p => inner (fst p) s' (snd p)) s.
Proof.
  revert s; induction xs as [|x xs IH]; intro s; simpl; [reflexivity|].
  rewrite for_each_app, for_each_map. simpl.
  destruct (for_each ys (inner x) s); simpl; [apply IH | reflexivity | reflexivity].
Qed.

(** What a completed list comprehension holds. *)
Lemma traverse_ok {A B : Type} (f : A -> result B) (xs : list A) (ys : list B) :
  traverse f xs = Ok ys -> Forall2 (fun x y => f x = Ok y) xs ys.
Proof.
  revert ys; induction xs as [|x xs IH]; intros ys H; simpl in H.
  - injection H as <-. constructor.
  - apply bind_ok in H as (y & Hy & H). apply bind_ok in H as (ys' & Hys & H).
    injection H as <-. constructor; [exact Hy | apply IH, Hys].
Qed.

Lemma traverse_raise {A B : Type} (f : A -> result B) (xs : list A) (e : exn) :
  traverse f xs = Raise e -> exists x, In x xs /\ f x = Raise e.
Proof.
  induction xs as [|x xs IH]; simpl; [discriminate|]. intro H.
  apply bind_raise in H as [H | (y & _ & H)]; [exists x; auto|].
  apply bind_raise in H as [H | (ys & _ & H)]; [|discriminate].
  destruct (IH H) as (x' & Hin & Hx). exists x'; auto.
Qed.

Lemma traverse_same {A : Type} (f : A -> result A) (xs ys : list A) :
  (forall x y, f x = Ok y -> y = x) -> traverse f xs = Ok ys -> ys = xs.
Proof.
  intros Hf H. apply traverse_ok in H.
  induction H as [|x y xs ys Hxy _ IH]; [reflexivity|].
  rewrite (Hf _ _ Hxy), IH. reflexivity.
Qed.

(** ** Dictionaries *)

Section DictFacts.
Context {K V : Type} (eqb : K -> K -> bool).
Hypothesis eqb_spec : forall a b, eqb a b = true <-> a = b.

Lemma eqb_same k : eqb k k = true.
Proof. apply eqb_spec; reflexivity. Qed.

Lemma dict_get_setitem_same (d : dict K V) k v :
  dict_get eqb (setitem eqb d k v) k = Some v.
Proof.
  induction d as [|[k' v'] d IH]; simpl.
  - rewrite eqb_same; reflexivity.
  - destruct (eqb k' k) eqn:E; simpl; rewrite E; [reflexivity | exact IH].
Qed.

Lemma dict_get_setitem_other (d : dict K V) k k' v :
  k <> k' -> dict_get eqb (setitem eqb d k v) k' = dict_get eqb d k'.
Proof.
  intro Hne. induction d as [|[k0 v0] d IH]; simpl.
  - destruct (eqb k k') eqn:E; [apply eqb_spec in E; contradiction | reflexivity].
  - destruct (eqb k0 k) eqn:E; simpl.
    + apply eqb_spec in E; subst k0.
      destruct (eqb k k') eqn:E'; [apply eqb_spec in E'; contradiction | reflexivity].
    + destruct (eqb k0 k'); [reflexivity | exact IH].
Qed.



End DictFacts.

Lemma key2_eqb_spec a b : key2_eqb a b = true <-> a = b.
Proof.
  destruct a as [a1 a2], b as [b1 b2]; unfold key2_eqb; simpl.
  rewrite andb_true_iff, !String.eqb_eq. split.
  - intros [-> ->]; reflexivity.
  - intro H; injection H; auto.
Qed.



Lemma getitem_raise {K V : Type} (eqb : K -> K -> bool) (d : dict K V) k e :
  getitem eqb d k = Raise e -> e = KeyError.
Proof.
  unfold getitem; destruct (dict_get eqb d k); intro H; [discriminate | congruence].
Qed.

Lemma getitem_ok {K V : Type} (eqb : K -> K -> bool) (d : dict K V) k v :
  getitem eqb d k = Ok v -> dict_get eqb d k = Some v.
Proof.
  unfold getitem; destruct (dict_get eqb d k); intro H; [congruence | discriminate].
Qed.

(** ** Numbers and arrays *)

Lemma float64_ok q q' : Np.float64 q = Ok q' -> q' = q.
Proof. unfold Np.float64. destruct (Np.is_float64 q); intro H; congruence. Qed.

Lemma float64_raise q e : Np.float64 q <> Raise e.
Proof. unfold Np.float64. destruct (Np.is_float64 q); discriminate. Qed.

Lemma add_ok x y s : Np.add x y = Ok s -> s = (x + y)%Q.
Proof. apply float64_ok. Qed.

Lemma add_raise x y e : Np.add x y <> Raise e.
Proof. apply float64_raise. Qed.

Lemma length_ones (n : nat) : length (Np.ones n) = n.
Proof. apply repeat_length. Qed.

Lemma length_zeros n : length (Np.zeros n) = n.
Proof. apply repeat_length. Qed.

Lemma nth_zeros n i : nth i (Np.zeros n) 0%Q = 0%Q.
Proof.
  unfold Np.zeros. revert i; induction n as [|n IH]; intros [|i]; simpl; auto.
Qed.

Lemma length_numbers (v : Value) : length (numbers v) = len v.
Proof. destruct v as [m|dt c]; simpl; [apply length_map | reflexivity]. Qed.

(** A conversion to float64 that is followed leaves the numbers as they
    are. *)
Lemma as_float_ok v x : as_float v = Ok x -> x = numbers v.
Proof.
  destruct v as [m|dt c]; simpl; intro H; [congruence|].
  apply (traverse_same _ c) in H; [exact H|].
  intros a b Hab. destruct (Np.fits dt a); [apply float64_ok, Hab | discriminate].
Qed.

Lemma as_float_raise v e : as_float v <> Raise e.
Proof.
  destruct v as [m|dt c]; simpl; [discriminate|]. intro H.
  apply traverse_raise in H as (x & _ & H).
  destruct (Np.fits dt x); [exact (float64_raise _ H) | discriminate].
Qed.

Lemma length_as_float v x : as_float v = Ok x -> length x = len v.
Proof. intro H. rewrite (as_float_ok _ H). apply length_numbers. Qed.

Lemma as_float_ones n : as_float (Column Np.Float64 (Np.ones n)) = Ok (Np.ones n).
Proof.
  unfold Np.ones. cbn [as_float]. induction n as [|n IH]; [reflexivity|].
  cbn [repeat traverse]. rewrite IH. reflexivity.
Qed.

Lemma squared_ones n :
  squared (Column Np.Float64 (Np.ones n)) = Ok (Column Np.Float64 (Np.ones n)).
Proof.
  unfold Np.ones. cbn [squared].
  assert (H : traverse (Np.square Np.Float64) (repeat 1%Q n) = Ok (repeat 1%Q n)).
  { induction n as [|n IH]; [reflexivity|].
    cbn [repeat traverse]. rewrite IH. reflexivity. }
  rewrite H. reflexivity.
Qed.

Lemma squared_weights_ones n :
  squared_weights (Column Np.Float64 (Np.ones n)) = Ok (Np.ones n).
Proof. unfold squared_weights. rewrite squared_ones. cbn [bind]. apply as_float_ones. Qed.

Lemma square_raise dt x e : Np.square dt x <> Raise e.
Proof.
  unfold Np.square. destruct (negb (Np.fits dt x)); [discriminate|].
  destruct dt; try (destruct (Np.integer_of x); discriminate).
  - destruct (Np.is_float32 (x * x)); discriminate.
  - apply float64_raise.
Qed.

Lemma squared_raise v e : squared v <> Raise e.
Proof.
  destruct v as [m|dt c]; simpl; [discriminate|]. intro H.
  apply bind_raise in H as [H | (c' & _ & H)]; [|discriminate].
  apply traverse_raise in H as (x & _ & H). exact (square_raise _ _ H).
Qed.

Lemma squared_weights_raise v e : squared_weights v <> Raise e.
Proof.
  unfold squared_weights. intro H.
  apply bind_raise in H as [H | (v2 & _ & H)];
    [exact (squared_raise _ H) | exact (as_float_raise _ H)].
Qed.

(** The square of a float is its square. *)
Lemma square_float dt x y :
  dt = Np.Float32 \/ dt = Np.Float64 ->
  Np.square dt x = Ok y -> y = (x * x)%Q.
Proof.
  unfold Np.square. destruct (negb (Np.fits dt x)); [discriminate|].
  intros [-> | ->].
  - destruct (Np.is_float32 (x * x)); intro H; congruence.
  - apply float64_ok.
Qed.

Lemma length_squared v v2 : squared v = Ok v2 -> len v2 = len v.
Proof.
  destruct v as [m|dt c]; simpl; intro H.
  - injection H as <-. cbn [len]. apply length_map.
  - apply bind_ok in H as (c' & Hc & H). injection H as <-. cbn [len].
    apply traverse_ok in Hc. symmetry. exact (Forall2_length Hc).
Qed.

Lemma length_squared_weights v w2 : squared_weights v = Ok w2 -> length w2 = len v.
Proof.
  unfold squared_weights. intro H. apply bind_ok in H as (v2 & Hv2 & H).
  rewrite (length_as_float _ H). apply length_squared, Hv2.
Qed.

(** The squared weights of a float array are the squares of its numbers. *)
Lemma squared_weights_float dt c w2 :
  dt = Np.Float32 \/ dt = Np.Float64 ->
  squared_weights (Column dt c) = Ok w2 -> w2 = map (fun x => (x * x)%Q) c.
Proof.
  intros Hdt H. unfold squared_weights in H.
  apply bind_ok in H as (v2 & Hv2 & H). cbn [squared] in Hv2.
  apply bind_ok in Hv2 as (c' & Hc & Hv2). injection Hv2 as <-.
  apply as_float_ok in H. cbn [numbers] in H. subst w2.
  apply traverse_ok in Hc. clear -Hc Hdt.
  induction Hc as [|x y c c' Hxy _ IH]; [reflexivity|].
  cbn [map]. rewrite IH, (@square_float dt x y Hdt Hxy). reflexivity.
Qed.

Lemma iadd_ok a b c :
  Np.iadd a b = Ok c ->
  length b = length a /\ length c = length a /\
  forall i, i < length a -> nth i c 0%Q = (nth i a 0 + nth i b 0)%Q.
Proof.
  revert b c; induction a as [|x a IH]; intros [|y b] c H; simpl in H;
    try discriminate.
  - injection H as <-. repeat split. intros i Hi. simpl in Hi. lia.
  - apply bind_ok in H as (s & Hs & H). apply bind_ok in H as (rest & Hr & H).
    injection H as <-. apply add_ok in Hs. subst s.
    destruct (IH _ _ Hr) as (Hl1 & Hl2 & Hn).
    simpl. repeat split; [congruence | congruence |].
    intros [|i] Hi; [reflexivity | apply Hn; lia].
Qed.

Lemma iadd_raise a b e : Np.iadd a b = Raise e -> length a <> length b.
Proof.
  revert b; induction a as [|x a IH]; intros [|y b] H; simpl in H;
    try discriminate; simpl; try lia.
  apply bind_raise in H as [H | (s & _ & H)]; [exfalso; exact (add_raise _ _ H)|].
  apply bind_raise in H as [H | (rest & _ & H)]; [|discriminate].
  apply IH in H. lia.
Qed.


Lemma total_app xs ys : (total (xs ++ ys) == total xs + total ys)%Q.
Proof.
  unfold total. induction xs as [|y xs IH]; simpl.
  - rewrite Qplus_0_l. reflexivity.
  - rewrite IH. apply Qplus_assoc.
Qed.

(** The weights of one index, added one after the other without rounding,
    are their sum. *)
Lemma sum_at_ok acc i xy weights s :
  Np.sum_at acc i xy weights = Ok s -> (s == acc + sum_of_index i xy weights)%Q.
Proof.
  unfold sum_of_index.
  revert acc weights; induction xy as [|j xy IH]; intros acc [|w weights] H;
    simpl in H; try (injection H as <-; simpl; rewrite Qplus_0_r; reflexivity).
  cbn [combine filter fst snd]. destruct (j =? i)%nat.
  - apply bind_ok in H as (acc' & Ha & H). apply add_ok in Ha. subst acc'.
    rewrite (IH _ _ H). cbn [map total fold_right snd]. fold (total).
    rewrite Qplus_assoc. reflexivity.
  - exact (IH _ _ H).
Qed.

Lemma sum_at_raise acc i xy weights e : Np.sum_at acc i xy weights <> Raise e.
Proof.
  revert acc weights; induction xy as [|j xy IH]; intros acc [|w weights] H;
    simpl in H; try discriminate.
  destruct (j =? i)%nat; [|exact (IH _ _ H)].
  apply bind_raise in H as [H | (acc' & _ & H)];
    [exact (add_raise _ _ H) | exact (IH _ _ H)].
Qed.

Lemma Forall2_nth {A B : Type} (R : A -> B -> Prop) (l : list A) (l' : list B) i d d' :
  Forall2 R l l' -> i < length l -> R (nth i l d) (nth i l' d').
Proof.
  intro H. revert i. induction H as [|x y l l' Hxy _ IH]; intros i Hi; simpl in Hi;
    [lia|].
  destruct i as [|i]; simpl; [exact Hxy | apply IH; lia].
Qed.

Lemma bincount_ok xy weights n a :
  Np.bincount xy weights n = Ok a ->
  length weights = length xy /\ length a = n /\
  forall i, i < n -> (nth i a 0 == sum_of_index i xy weights)%Q.
Proof.
  unfold Np.bincount.
  destruct (length weights =? length xy)%nat eqn:E; [|discriminate].
  cbn [negb]. intro H. apply Nat.eqb_eq in E. apply traverse_ok in H.
  split; [exact E|]. split.
  - rewrite <- (Forall2_length H). apply length_seq.
  - intros i Hi.
    pose proof (@Forall2_nth _ _ _ _ _ i 0 0%Q H) as Hn.
    rewrite length_seq, seq_nth in Hn by exact Hi. specialize (Hn Hi).
    cbn [plus] in Hn. apply sum_at_ok in Hn. rewrite Hn. apply Qplus_0_l.
Qed.

Lemma bincount_raise xy weights n e :
  Np.bincount xy weights n = Raise e -> length weights <> length xy.
Proof.
  unfold Np.bincount.
  destruct (length weights =? length xy)%nat eqn:E.
  - cbn [negb]. intro H. apply traverse_raise in H as (i & _ & H).
    exfalso. exact (sum_at_raise _ _ _ _ H).
  - intros _. apply Nat.eqb_neq, E.
Qed.

Lemma length_slice_1_m2 {A : Type} (a : list A) :
  length (Np.slice_1_m2 a) = length a - 3.
Proof.
  unfold Np.slice_1_m2. rewrite length_firstn, length_skipn. lia.
Qed.

(** Entry [b] of [a[1:-2]] is entry [b + 1] of [a]. *)
Lemma nth_slice_1_m2 {A : Type} (a : list A) (d : A) (b : nat) :
  b < length a - 3 -> nth b (Np.slice_1_m2 a) d = nth (S b) a d.
Proof.
  intro Hb. unfold Np.slice_1_m2.
  rewrite nth_firstn.
  replace (b <? length a - 2 - 1) with true by (symmetry; apply Nat.ltb_lt; lia).
  destruct a as [|x a]; simpl in *; [lia|]. reflexivity.
Qed.

(** The weights with the index of bin [b] are the weights of the values in
    the bin. *)
Lemma sum_of_index_bin edges b xs weights :
  sum_of_index (S b) (map (Hist.index edges) xs) weights = sumw_in_bin edges b xs weights.
Proof.
  unfold sum_of_index, sumw_in_bin, in_bin.
  revert weights; induction xs as [|x xs IH]; intros [|w weights]; try reflexivity.
  cbn [map combine filter fst snd].
  destruct (Hist.index edges x =? S b)%nat; cbn [map total fold_right snd];
    [f_equal|]; apply IH.
Qed.

(** Unit weights: the sum over a bin is the number of values in it. *)
Lemma sumw_in_bin_ones edges b xs :
  (sumw_in_bin edges b xs (Np.ones (length xs)) ==
   inject_Z (Z.of_nat (count_in_bin edges b xs)))%Q.
Proof.
  unfold sumw_in_bin, count_in_bin, Np.ones.
  induction xs as [|x xs IH]; [reflexivity|].
  cbn [length repeat combine filter fst snd].
  destruct (in_bin edges b x); [|exact IH].
  cbn [map total fold_right snd length]. fold total.
  rewrite IH, Nat2Z.inj_succ, <- Z.add_1_l, inject_Z_plus. reflexivity.
Qed.

Lemma count_in_bin_events {E : Type} edges b (f : E -> Q) (selected : list E) :
  count_in_bin edges b (map f selected) =
  length (filter (fun r => in_bin edges b (f r)) selected).
Proof.
  unfold count_in_bin.
  induction selected as [|r rs IH]; simpl; [reflexivity|].
  destruct (in_bin edges b (f r)); simpl; rewrite IH; reflexivity.
Qed.





(** What numpy finds sorted is sorted. *)
Lemma sorted_StronglySorted (a : list Q) :
  Np.sorted a = true -> StronglySorted Qle a.
Proof.
  intro H. apply Sorted_StronglySorted; [intros x y z; apply Qle_trans|].
  induction a as [|x a IH]; [constructor|].
  destruct a as [|y a]; [repeat constructor|].
  cbn [Np.sorted] in H. apply andb_true_iff in H as [Hxy H].
  constructor; [apply IH, H|]. constructor. apply Qle_bool_iff, Hxy.
Qed.

(** ** What one fill adds *)

Lemma Hist_fill_inv h dataset template weight variable observables h' :
  Hist.fill h dataset template weight variable observables = Ok h' ->
  Hist.axis_name h = variable /\
  exists x w w2 counts counts2 s1 s2,
    as_float observables = Ok x /\
    as_float weight = Ok w /\
    squared_weights weight = Ok w2 /\
    Np.bincount (map (Hist.index (Hist.edges h)) x) w (Hist.size h) = Ok counts /\
    Np.iadd (fst (Hist.cell h (dataset, template))) counts = Ok s1 /\
    Np.bincount (map (Hist.index (Hist.edges h)) x) w2 (Hist.size h) = Ok counts2 /\
    Np.iadd (snd (Hist.cell h (dataset, template))) counts2 = Ok s2 /\
    h' = Hist.with_content h
           (setitem key2_eqb (Hist.content h) (dataset, template) (s1, s2)).
Proof.
  unfold Hist.fill. intro H.
  destruct (Hist.axis_name h =? variable)%string eqn:E; [|discriminate].
  apply String.eqb_eq in E. split; [exact E|]. cbn [negb] in H.
  apply bind_ok in H as (x & Hx & H). apply bind_ok in H as (w & Hw & H).
  apply bind_ok in H as (counts & Hc & H). apply bind_ok in H as (s1 & Hs1 & H).
  apply bind_ok in H as (weight2 & Hweight2 & H). apply bind_ok in H as (w2 & Hw2 & H).
  apply bind_ok in H as (counts2 & Hc2 & H). apply bind_ok in H as (s2 & Hs2 & H).
  injection H as <-.
  exists x, w, w2, counts, counts2, s1, s2.
  repeat (split; [assumption|]).
  split; [unfold squared_weights; rewrite Hweight2; exact Hw2|].
  repeat (split; [assumption|]). reflexivity.
Qed.

(** A fill changes the content at its key and nothing else. *)
Lemma Hist_fill_shape h dataset template weight variable observables h' :
  Hist.fill h dataset template weight variable observables = Ok h' ->
  Hist.axis_name h = variable /\
  exists c,
    h' = Hist.with_content h (setitem key2_eqb (Hist.content h) (dataset, template) c)
    /\ length (fst c) = length (fst (Hist.cell h (dataset, template)))
    /\ length (snd c) = length (snd (Hist.cell h (dataset, template))).
Proof.
  intro H. apply Hist_fill_inv in H
    as (Ha & x & w & w2 & counts & counts2 & s1 & s2 & _ & _ & _ & _ & Hs1 & _ & Hs2 & ->).
  split; [exact Ha|]. exists (s1, s2). split; [reflexivity|].
  apply iadd_ok in Hs1 as (_ & Hl1 & _). apply iadd_ok in Hs2 as (_ & Hl2 & _).
  auto.
Qed.

(** The exceptions of a fill: an axis that the histogram does not have,
    weights that are not as many as the values, or a stored array of
    another shape. *)
Lemma Hist_fill_raise h dataset template weight variable observables e :
  Hist.fill h dataset template weight variable observables = Raise e ->
  (Hist.axis_name h <> variable /\ e = Library "ValueError" "Not all axes specified") \/
  (Hist.axis_name h = variable /\ len weight <> len observables) \/
  (Hist.axis_name h = variable /\
   (length (fst (Hist.cell h (dataset, template))) <> Hist.size h \/
    length (snd (Hist.cell h (dataset, template))) <> Hist.size h)).
Proof.
  unfold Hist.fill. intro H.
  destruct (Hist.axis_name h =? variable)%string eqn:E.
  2:{ left. split; [apply String.eqb_neq, E | cbn [negb] in H; congruence]. }
  apply String.eqb_eq in E. right. cbn [negb] in H.
  apply bind_raise in H as [H | (x & Hx & H)]; [exfalso; exact (as_float_raise _ H)|].
  apply bind_raise in H as [H | (w & Hw & H)]; [exfalso; exact (as_float_raise _ H)|].
  apply length_as_float in Hx. apply length_as_float in Hw.
  apply bind_raise in H as [H | (counts & Hc & H)].
  { left. split; [exact E|]. apply bincount_raise in H.
    rewrite length_map in H. congruence. }
  apply bincount_ok in Hc as (Hlw & Hlc & _).
  apply bind_raise in H as [H | (s1 & Hs1 & H)].
  { right. split; [exact E|]. left. apply iadd_raise in H. congruence. }
  apply bind_raise in H as [H | (weight2 & Hweight2 & H)];
    [exfalso; exact (squared_raise _ H)|].
  apply bind_raise in H as [H | (w2 & Hw2 & H)]; [exfalso; exact (as_float_raise _ H)|].
  apply length_as_float in Hw2. apply length_squared in Hweight2.
  apply bind_raise in H as [H | (counts2 & Hc2 & H)].
  { left. split; [exact E|]. apply bincount_raise in H.
    rewrite length_map in H. congruence. }
  apply bincount_ok in Hc2 as (_ & Hlc2 & _).
  apply bind_raise in H as [H | (s2 & Hs2 & H)]; [|discriminate].
  right. split; [exact E|]. right. apply iadd_raise in H. congruence.
Qed.

Lemma cell_shape h key :
  well_shaped h ->
  length (fst (Hist.cell h key)) = Hist.size h /\
  length (snd (Hist.cell h key)) = Hist.size h.
Proof.
  intro Hw. unfold Hist.cell.
  destruct (dict_get key2_eqb (Hist.content h) key) as [c|] eqn:E.
  - exact (Hw _ _ E).
  - simpl. rewrite length_zeros. auto.
Qed.

Lemma cell_fresh h key :
  dict_get key2_eqb (Hist.content h) key = None ->
  Hist.cell h key = (Np.zeros (Hist.size h), Np.zeros (Hist.size h)).
Proof. unfold Hist.cell. intros ->. reflexivity. Qed.

Lemma cell_with_content h key c :
  Hist.cell (Hist.with_content h (setitem key2_eqb (Hist.content h) key c)) key = c.
Proof.
  unfold Hist.cell. cbn [Hist.with_content Hist.content].
  rewrite (dict_get_setitem_same key2_eqb key2_eqb_spec). reflexivity.
Qed.

Lemma cell_with_content_other h key key' c :
  key <> key' ->
  Hist.cell (Hist.with_content h (setitem key2_eqb (Hist.content h) key c)) key' =
  Hist.cell h key'.
Proof.
  intro Hne. unfold Hist.cell. cbn [Hist.with_content Hist.content].
  rewrite (dict_get_setitem_other key2_eqb key2_eqb_spec) by exact Hne.
  reflexivity.
Qed.

Lemma well_shaped_setitem h key c :
  well_shaped h ->
  length (fst c) = Hist.size h -> length (snd c) = Hist.size h ->
  well_shaped (Hist.with_content h (setitem key2_eqb (Hist.content h) key c)).
Proof.
  intros Hw H1 H2 k c' Hget.
  change (Hist.size (Hist.with_content h _)) with (Hist.size h).
  cbn [Hist.with_content Hist.content] in Hget.
  destruct (key2_eqb key k) eqn:E.
  - apply key2_eqb_spec in E; subst k.
    rewrite (dict_get_setitem_same key2_eqb key2_eqb_spec) in Hget.
    injection Hget as <-. auto.
  - rewrite (dict_get_setitem_other key2_eqb key2_eqb_spec) in Hget.
    + exact (Hw _ _ Hget).
    + intro Heq. subst k.
      rewrite (proj2 (key2_eqb_spec key key) eq_refl) in E. discriminate.
Qed.

Lemma well_shaped_identity h : well_shaped (Hist.identity h).
Proof. intros k c Hget. discriminate. Qed.

(** A fill keeps the arrays in shape. *)
Lemma Hist_fill_well_shaped h dataset template weight variable observables h' :
  Hist.fill h dataset template weight variable observables = Ok h' ->
  well_shaped h -> well_shaped h'.
Proof.
  intros H Hw. apply Hist_fill_shape in H as (_ & c & -> & Hl1 & Hl2).
  destruct (@cell_shape h (dataset, template) Hw) as [H1 H2].
  apply well_shaped_setitem; [exact Hw | congruence | congruence].
Qed.

(** After a fill, every bin of the filled entry holds what it held before
    plus the weights, and the squared weights, of the values in the bin. *)
Lemma fill_adds_to_bin h dataset template weight variable observables h' :
  Hist.fill h dataset template weight variable observables = Ok h' ->
  well_shaped h ->
  exists x w w2,
    as_float observables = Ok x /\ as_float weight = Ok w /\
    squared_weights weight = Ok w2 /\
    forall b, S b < length (Hist.edges h) ->
      (nth b (yields h' (dataset, template)) 0 ==
       nth b (yields h (dataset, template)) 0 + sumw_in_bin (Hist.edges h) b x w)%Q /\
      (nth b (sumw2 h' (dataset, template)) 0 ==
       nth b (sumw2 h (dataset, template)) 0 + sumw_in_bin (Hist.edges h) b x w2)%Q.
Proof.
  intros H Hw.
  destruct (@cell_shape h (dataset, template) Hw) as [Hl1 Hl2].
  apply Hist_fill_inv in H
    as (_ & x & w & w2 & counts & counts2 & s1 & s2 & Hx & Hwt & Hw2 & Hc & Hs1 & Hc2 &
        Hs2 & ->).
  exists x, w, w2. repeat (split; [assumption|]).
  intros b Hb.
  apply bincount_ok in Hc as (_ & Hlc & Hc). apply bincount_ok in Hc2 as (_ & Hlc2 & Hc2).
  apply iadd_ok in Hs1 as (_ & Hls1 & Hs1). apply iadd_ok in Hs2 as (_ & Hls2 & Hs2).
  unfold yields, sumw2. rewrite !cell_with_content. cbn [fst snd].
  unfold Hist.size in *.
  rewrite !nth_slice_1_m2 by lia.
  rewrite Hs1, Hs2 by lia. rewrite Hc, Hc2 by lia.
  rewrite !sum_of_index_bin. split; reflexivity.
Qed.

Lemma yields_fresh h key b :
  dict_get key2_eqb (Hist.content h) key = None ->
  nth b (yields h key) 0%Q = 0%Q /\ nth b (sumw2 h key) 0%Q = 0%Q.
Proof.
  intro Hk. unfold yields, sumw2. rewrite (cell_fresh _ _ Hk). cbn [fst snd].
  assert (H : forall n, nth b (Np.slice_1_m2 (Np.zeros n)) 0%Q = 0%Q).
  { intro n. destruct (Nat.lt_ge_cases b (length (Np.zeros n) - 3)) as [Hlt|Hge].
    - rewrite nth_slice_1_m2 by exact Hlt. apply nth_zeros.
    - apply nth_overflow. rewrite length_slice_1_m2. exact Hge. }
  split; apply H.
Qed.

(** ** Reading a histogram *)

Lemma values_get h key :
  dict_get key2_eqb (Hist.values h) key =
  option_map (fun c => (Np.slice_1_m2 (fst c), Np.slice_1_m2 (snd c)))
    (dict_get key2_eqb (Hist.content h) key).
Proof.
  unfold Hist.values. induction (Hist.content h) as [|[k c] d IH]; simpl; [reflexivity|].
  destruct (key2_eqb k key); [reflexivity | exact IH].
Qed.

Lemma values_lookup h key y v :
  dict_get key2_eqb (Hist.values h) key = Some (y, v) ->
  y = yields h key /\ v = sumw2 h key.
Proof.
  rewrite values_get. unfold yields, sumw2, Hist.cell.
  destruct (dict_get key2_eqb (Hist.content h) key) as [c|]; [|discriminate].
  intro H. injection H as <- <-. auto.
Qed.

(** ** Adding histograms *)

Lemma array_equal_refl a : Np.array_equal a a = true.
Proof.
  induction a as [|x a IH]; simpl; [reflexivity|].
  rewrite IH, andb_true_r. apply Qeq_bool_iff. reflexivity.
Qed.

Lemma add_entry_inv acc kv acc' :
  Hist.add_entry acc kv = Ok acc' ->
  exists entry,
    acc' = Hist.with_content acc (setitem key2_eqb (Hist.content acc) (fst kv) entry) /\
    match dict_get key2_eqb (Hist.content acc) (fst kv) with
    | Some mine =>
        Np.iadd (fst mine) (fst (snd kv)) = Ok (fst entry) /\
        Np.iadd (snd mine) (snd (snd kv)) = Ok (snd entry)
    | None => entry = snd kv
    end.
Proof.
  unfold Hist.add_entry. intro H. apply bind_ok in H as (entry & He & H).
  injection H as <-. exists entry. split; [reflexivity|].
  destruct (dict_get key2_eqb (Hist.content acc) (fst kv)) as [mine|].
  - apply bind_ok in He as (s2 & Hs2 & He). apply bind_ok in He as (s1 & Hs1 & He).
    injection He as <-. auto.
  - injection He as <-. reflexivity.
Qed.


(** A sum has the axis of its first histogram. *)
Lemma Hist_add_identity h other h' :
  Hist.add h other = Ok h' -> Hist.identity h' = Hist.identity h.
Proof.
  unfold Hist.add. destruct (negb _); [discriminate|].
  revert h. induction (Hist.content other) as [|kv l IH]; intros h H;
    cbn [for_each] in H.
  - injection H as <-. reflexivity.
  - apply bind_ok in H as (h1 & H1 & H). rewrite (IH _ H).
    apply add_entry_inv in H1 as (entry & -> & _). reflexivity.
Qed.

Lemma Hist_add_compatible h other h' :
  Hist.add h other = Ok h' ->
  Hist.axis_name h = Hist.axis_name other.
Proof.
  unfold Hist.add, Hist.compatible.
  destruct (Hist.axis_name h =? Hist.axis_name other)%string eqn:E;
    [|discriminate].
  intros _. apply String.eqb_eq, E.
Qed.

(** ** Accumulators *)

Lemma Acc_identity_idem a : Acc.identity (Acc.identity a) = Acc.identity a.
Proof.
  unfold Acc.identity. rewrite map_map. reflexivity.
Qed.

Lemma Acc_identity_setitem (out : Accumulator) key h h' :
  dict_get String.eqb out key = Some h ->
  Hist.identity h' = Hist.identity h ->
  Acc.identity (setitem String.eqb out key h') = Acc.identity out.
Proof.
  intros Hget Hid. induction out as [|[k v] out IH]; simpl in *; [discriminate|].
  destruct (k =? key)%string; simpl.
  - injection Hget as ->. rewrite Hid. reflexivity.
  - rewrite IH by exact Hget. reflexivity.
Qed.

Lemma dict_get_identity (a : Accumulator) c :
  dict_get String.eqb (Acc.identity a) c = option_map Hist.identity (dict_get String.eqb a c).
Proof.
  induction a as [|[k h] a IH]; simpl; [reflexivity|].
  destruct (k =? c)%string; [reflexivity | exact IH].
Qed.

(** ** The loop body of process *)

Section Body.
Variable eval_expr : string -> list Row -> evaluated.

(** What a completed loop body has done. *)
Lemma process_template_inv events ch out t out' :
  process_template eval_expr events ch out t = Ok out' ->
  exists mask selected observables weights h h',
    eval eval_expr (selection_filter t) (rows events) = Ok mask /\
    events_getitem (rows events) mask = Ok selected /\
    eval eval_expr (Some (variable ch)) selected = Ok observables /\
    match weight t with
    | Some expression => eval eval_expr (Some expression) selected = Ok weights
    | None => weights = Column Np.Float64 (Np.ones (len observables))
    end /\
    dict_get String.eqb out (channel_name ch) = Some h /\
    existsb (String.eqb (variable ch)) fill_keywords = false /\
    Hist.fill h (metadata_dataset events) (template_name t) weights (variable ch)
      observables = Ok h' /\
    out' = setitem String.eqb out (channel_name ch) h'.
Proof.
  unfold process_template. intro H.
  apply bind_ok in H as (mask & Hm & H).
  apply bind_ok in H as (selected & Hs & H).
  apply bind_ok in H as (observables & Ho & H).
  apply bind_ok in H as (weights & Hw & H).
  apply bind_ok in H as (h & Hh & H).
  destruct (existsb _ fill_keywords) eqn:Hk; [discriminate|].
  apply bind_ok in H as (h' & Hf & H). injection H as <-.
  exists mask, selected, observables, weights, h, h'.
  repeat split; try assumption.
  - destruct (weight t) as [expression|]; [exact Hw | congruence].
  - apply getitem_ok in Hh. exact Hh.
Qed.

(** The arrays that a completed loop body has filled in. *)
Lemma process_template_arrays events ch out t out' :
  process_template eval_expr events ch out t = Ok out' ->
  exists observables weights a h h',
    template_arrays eval_expr events ch t = Ok a /\
    as_float observables = Ok (fst a) /\ as_float weights = Ok (snd a) /\
    (weight t = None -> weights = Column Np.Float64 (Np.ones (length (fst a)))) /\
    dict_get String.eqb out (channel_name ch) = Some h /\
    Hist.fill h (metadata_dataset events) (template_name t) weights (variable ch)
      observables = Ok h' /\
    out' = setitem String.eqb out (channel_name ch) h'.
Proof.
  intro H.
  apply process_template_inv in H
    as (mask & selected & observables & weights & h & h' & Hm & Hs & Ho & Hwt & Hh & _ &
        Hf & ->).
  pose proof Hf as Hfill.
  apply Hist_fill_inv in Hf as (_ & x & w & _ & _ & _ & _ & _ & Hx & Hw & _).
  exists observables, weights, (x, w), h, h'.
  split.
  { unfold template_arrays. rewrite Hm. cbn [bind]. rewrite Hs. cbn [bind].
    rewrite Ho. cbn [bind].
    destruct (weight t) as [expression|].
    - rewrite Hwt. cbn [bind]. rewrite Hx. cbn [bind]. rewrite Hw. reflexivity.
    - subst weights. cbn [bind]. rewrite Hx. cbn [bind]. rewrite Hw. reflexivity. }
  cbn [fst snd]. repeat (split; [assumption|]).
  split; [|auto].
  intro Hnone. rewrite Hnone in Hwt. rewrite Hwt.
  rewrite (length_as_float _ Hx). reflexivity.
Qed.

Lemma process_template_keeps_axes events ch out t out' :
  process_template eval_expr events ch out t = Ok out' ->
  Acc.identity out' = Acc.identity out.
Proof.
  intro H.
  apply process_template_inv in H
    as (mask & selected & observables & weights & h & h' & _ & _ & _ & _ & Hh & _ & Hf & ->).
  apply (Acc_identity_setitem _ _ Hh).
  apply Hist_fill_shape in Hf as (_ & c & -> & _). reflexivity.
Qed.

Lemma process_with_templates self events templates :
  dict_get String.eqb (template_info self) (metadata_dataset events) = Some templates ->
  process eval_expr self events =
  for_each (list_prod (channel_info self) templates)
    (fun out p => process_template eval_expr events (fst p) out (snd p))
    (Acc.identity (accumulator self)).
Proof.
  intro Hd. unfold process.
  rewrite <- for_each_nested
    with (inner := fun ch out t => process_template eval_expr events ch out t).
  apply for_each_ext. intros out ch _.
  unfold process_channel, getitem. rewrite Hd. reflexivity.
Qed.


Lemma process_visits_every_template self events templates ch t out :
  dict_get String.eqb (template_info self) (metadata_dataset events) = Some templates ->
  In ch (channel_info self) -> In t templates ->
  process eval_expr self events = Ok out ->
  exists out1 out2, process_template eval_expr events ch out1 t = Ok out2.
Proof.
  intros Hd Hch Ht H.
  rewrite (process_with_templates _ _ Hd) in H.
  apply (for_each_ok_each _ _ _ H (ch, t)).
  apply in_prod; assumption.
Qed.


(** A pass over a processor with a channel has looked its dataset up. *)
Lemma process_ok_has_templates self events out ch :
  In ch (channel_info self) ->
  process eval_expr self events = Ok out ->
  exists templates,
    dict_get String.eqb (template_info self) (metadata_dataset events) = Some templates.
Proof.
  intros Hch H. unfold process in H.
  destruct (for_each_ok_each _ _ _ H ch Hch) as (o1 & o2 & Hstep).
  unfold process_channel, getitem in Hstep.
  destruct (dict_get String.eqb (template_info self) (metadata_dataset events))
    as [templates|]; [|discriminate].
  exists templates. reflexivity.
Qed.

End Body.

(** ** The constructor *)

Lemma find_snoc {A : Type} (f : A -> bool) (l : list A) (x : A) :
  find f (l ++ [x]) =
  match find f l with
  | Some y => Some y
  | None => if f x then Some x else None
  end.
Proof.
  induction l as [|y l IH]; simpl; [reflexivity|].
  destruct (f y); [reflexivity | exact IH].
Qed.



Lemma StronglySorted_sorted (a : list Q) : StronglySorted Qle a -> Np.sorted a = true.
Proof.
  induction a as [|x a IH]; intro H; [reflexivity|].
  apply StronglySorted_inv in H as [Hs Hall].
  destruct a as [|y a]; [reflexivity|].
  change (Np.sorted (x :: y :: a)) with (Qle_bool x y && Np.sorted (y :: a))%bool.
  rewrite (IH Hs), andb_true_r.
  apply Qle_bool_iff. apply Forall_inv in Hall. exact Hall.
Qed.

Lemma traverse_float64_ok (a b : list Q) :
  traverse Np.float64 a = Ok b ->
  b = a /\ Forall (fun e => Np.is_float64 e = true) a.
Proof.
  revert b; induction a as [|x a IH]; intros b H.
  - injection H as <-. split; [reflexivity | constructor].
  - cbn [traverse] in H. apply bind_ok in H as (y & Hy & H).
    apply bind_ok in H as (ys & Hys & H). injection H as <-.
    destruct (IH _ Hys) as [-> Hall]. unfold Np.float64 in Hy.
    destruct (Np.is_float64 x) eqn:E; [|discriminate]. injection Hy as <-.
    split; [reflexivity | constructor; assumption].
Qed.

Lemma traverse_float64_all (a : list Q) :
  Forall (fun e => Np.is_float64 e = true) a -> traverse Np.float64 a = Ok a.
Proof.
  induction 1 as [|x a Hx _ IH]; [reflexivity|].
  cbn [traverse]. unfold Np.float64 at 1. rewrite Hx. cbn [bind]. rewrite IH.
  reflexivity.
Qed.

Lemma traverse_float64_raise (a : list Q) e : traverse Np.float64 a <> Raise e.
Proof.
  intro H. apply traverse_raise in H as (x & _ & Hx). exact (@float64_raise x e Hx).
Qed.

(** What [hist.Bin] accepts, and what it makes of it. *)
Lemma Bin_ok name label arr a :
  Hist.Bin name label arr = Ok a ->
  name <> "weight"%string /\ a = Hist.mk_axis name label arr /\
  Forall (fun e => Np.is_float64 e = true) arr /\
  StronglySorted Qle arr /\ arr <> [].
Proof.
  unfold Hist.Bin. intro H.
  destruct (String.eqb_spec name "weight") as [|Hname]; [discriminate|].
  apply bind_ok in H as (bins & Hb & H).
  apply traverse_float64_ok in Hb as [-> Hall].
  destruct (Np.sorted arr) eqn:Hs; [|discriminate]. cbn [negb] in H.
  destruct arr as [|x arr]; [discriminate|]. injection H as <-.
  repeat split; try assumption.
  - apply sorted_StronglySorted, Hs.
  - discriminate.
Qed.

Lemma Bin_accepted name label arr :
  name <> "weight"%string ->
  Forall (fun e => Np.is_float64 e = true) arr ->
  StronglySorted Qle arr -> arr <> [] ->
  Hist.Bin name label arr = Ok (Hist.mk_axis name label arr).
Proof.
  intros Hname Hall Hs Hne. unfold Hist.Bin.
  destruct (String.eqb_spec name "weight") as [|_]; [contradiction|].
  rewrite (traverse_float64_all Hall). cbn [bind].
  rewrite (StronglySorted_sorted Hs). cbn [negb].
  destruct arr; [contradiction | reflexivity].
Qed.

(** The three ways in which [hist.Bin] refuses. *)
Lemma Bin_raise name label arr e :
  Hist.Bin name label arr = Raise e ->
  (name = "weight"%string /\
   e = Library "ValueError"
         "Cannot create axis: 'weight' is a reserved keyword for Hist.fill()") \/
  (Np.sorted arr = false /\ e = Library "ValueError" "Binning not sorted!") \/
  (arr = [] /\
   e = Library "IndexError" "index 0 is out of bounds for axis 0 with size 0").
Proof.
  unfold Hist.Bin. intro H.
  destruct (String.eqb_spec name "weight") as [Hname|_].
  { injection H as <-. left. auto. }
  apply bind_raise in H as [H | (bins & Hb & H)].
  { exfalso. exact (@traverse_float64_raise arr e H). }
  apply traverse_float64_ok in Hb as [-> _].
  destruct (Np.sorted arr) eqn:Hs; cbn [negb] in H.
  - destruct arr; [|discriminate]. injection H as <-. right; right. auto.
  - injection H as <-. right; left. auto.
Qed.

Lemma Bin_raise_library name label arr e :
  Hist.Bin name label arr = Raise e -> exists class what, e = Library class what.
Proof.
  intro H. apply Bin_raise in H as [[_ ->] | [[_ ->] | [_ ->]]]; eauto.
Qed.

(** The loop of the constructor. *)
Lemma init_loop_ok (ci : list Channel) (acc acc' : Accumulator) :
  for_each ci
    (fun acc ch =>
       bin <- Hist.Bin (variable ch) (observable_label ch) (binning ch) ;;
       Ok (Acc.update acc (channel_name ch) (Hist.Hist "events" bin))) acc = Ok acc' ->
  Forall accepts_axis ci /\
  acc' = fold_left (fun a ch => Acc.update a (channel_name ch) (channel_histogram ch))
           ci acc.
Proof.
  revert acc; induction ci as [|ch ci IH]; intros acc H.
  - injection H as <-. split; [constructor | reflexivity].
  - cbn [for_each] in H. apply bind_ok in H as (acc1 & H1 & H).
    apply bind_ok in H1 as (bin & Hbin & H1). injection H1 as <-.
    apply Bin_ok in Hbin as (Hname & -> & Hall & Hs & Hne).
    destruct (IH _ H) as [Hci ->].
    split; [constructor; [repeat split; assumption | exact Hci] | reflexivity].
Qed.

Lemma init_loop_accepted (ci : list Channel) (acc : Accumulator) :
  Forall accepts_axis ci ->
  for_each ci
    (fun acc ch =>
       bin <- Hist.Bin (variable ch) (observable_label ch) (binning ch) ;;
       Ok (Acc.update acc (channel_name ch) (Hist.Hist "events" bin))) acc =
  Ok (fold_left (fun a ch => Acc.update a (channel_name ch) (channel_histogram ch))
        ci acc).
Proof.
  intro Hci. revert acc. induction Hci as [|ch ci (Hname & Hall & Hs & Hne) _ IH];
    intro acc; [reflexivity|].
  cbn [for_each fold_left].
  rewrite (Bin_accepted (observable_label ch) Hname Hall Hs Hne). cbn [bind].
  apply IH.
Qed.

Lemma init_loop_raise (ci : list Channel) (acc : Accumulator) e :
  for_each ci
    (fun acc ch =>
       bin <- Hist.Bin (variable ch) (observable_label ch) (binning ch) ;;
       Ok (Acc.update acc (channel_name ch) (Hist.Hist "events" bin))) acc = Raise e ->
  exists ch, In ch ci /\
    Hist.Bin (variable ch) (observable_label ch) (binning ch) = Raise e.
Proof.
  intro H. apply for_each_raise in H as (acc1 & ch & Hin & H).
  exists ch. split; [exact Hin|].
  apply bind_raise in H as [H | (bin & _ & H)]; [exact H | discriminate].
Qed.

Lemma MyProcessor_init_ok ci ti self :
  MyProcessor_init (Some ci) (Some ti) = Ok self ->
  Forall accepts_axis ci /\
  self = {| _accumulator := channel_histograms ci; channel_info := ci;
            template_info := ti |}.
Proof.
  cbn [MyProcessor_init]. intro H. apply bind_ok in H as (acc & Hacc & H).
  injection H as <-. apply init_loop_ok in Hacc as [Hci ->]. auto.
Qed.

Lemma MyProcessor_init_accepted ci ti :
  Forall accepts_axis ci ->
  MyProcessor_init (Some ci) (Some ti) =
  Ok {| _accumulator := channel_histograms ci; channel_info := ci;
        template_info := ti |}.
Proof.
  intro Hci. cbn [MyProcessor_init]. rewrite (init_loop_accepted [] Hci). reflexivity.
Qed.

Lemma MyProcessor_init_raise ci ti e :
  MyProcessor_init (Some ci) (Some ti) = Raise e ->
  exists ch, In ch ci /\
    Hist.Bin (variable ch) (observable_label ch) (binning ch) = Raise e.
Proof.
  cbn [MyProcessor_init]. intro H.
  apply bind_raise in H as [H | (acc & _ & H)]; [|discriminate].
  apply init_loop_raise in H. exact H.
Qed.

Lemma init_accumulator_get (ci : list Channel) (acc : Accumulator) name :
  dict_get String.eqb
    (fold_left (fun a ch => Acc.update a (channel_name ch) (channel_histogram ch)) ci acc)
    name =
  match last_channel name ci with
  | Some ch => Some (channel_histogram ch)
  | None => dict_get String.eqb acc name
  end.
Proof.
  unfold last_channel. revert acc; induction ci as [|ch ci IH]; intro acc; [reflexivity|].
  cbn [fold_left rev]. rewrite IH, find_snoc.
  destruct (find _ (rev ci)) as [ch'|]; [reflexivity|].
  unfold Acc.update.
  destruct (channel_name ch =? name)%string eqn:E.
  - apply String.eqb_eq in E. subst name.
    apply (dict_get_setitem_same String.eqb String.eqb_eq).
  - apply (dict_get_setitem_other String.eqb String.eqb_eq).
    intro Heq. subst name. rewrite String.eqb_refl in E. discriminate.
Qed.


Lemma channel_histograms_get ci name :
  dict_get String.eqb (channel_histograms ci) name =
  option_map channel_histogram (last_channel name ci).
Proof.
  unfold channel_histograms. rewrite init_accumulator_get.
  destruct (last_channel name ci); reflexivity.
Qed.




Lemma init_histogram_of_last_channel (ci : list Channel)
    (ti : dict string (list Template)) self out name ch' :
  MyProcessor_init (Some ci) (Some ti) = Ok self ->
  Acc.identity out = Acc.identity (accumulator self) ->
  last_channel name ci = Some ch' ->
  exists h,
    dict_get String.eqb out name = Some h /\
    Hist.identity h = channel_histogram ch'.
Proof.
  intros Hinit Hid Hlast.
  pose proof (dict_get_identity out name) as Hout.
  rewrite Hid, dict_get_identity in Hout.
  apply MyProcessor_init_ok in Hinit as [_ ->].
  cbn [accumulator _accumulator] in Hout.
  rewrite channel_histograms_get, Hlast in Hout. cbn [option_map] in Hout.
  destruct (dict_get String.eqb out name) as [h|]; [|discriminate].
  cbn [option_map] in Hout.
  assert (Hh : Hist.identity h = Hist.identity (channel_histogram ch')) by congruence.
  exists h. split; [reflexivity|]. rewrite Hh. reflexivity.
Qed.

(** ** Chunks that [process] has nothing to do for *)

Section ProcessEdges.
Variable eval_expr : string -> list Row -> evaluated.

(** X2.  What [process] does when the loops have nothing to run on.  A
    processor without channels returns its empty histograms for every chunk,
    whatever [template_info] holds; with at least one channel, a chunk whose
    dataset is not a key of [template_info] raises KeyError, and a chunk
    whose dataset has an empty template list returns the empty histograms. *)
Theorem process_without_work :
  (forall self events,
     channel_info self = [] ->
     process eval_expr self events = Ok (Acc.identity (accumulator self))) /\
  (forall self events,
     channel_info self <> [] ->
     dict_get String.eqb (template_info self) (metadata_dataset events) = None ->
     process eval_expr self events = Raise KeyError) /\
  (forall self events,
     dict_get String.eqb (template_info self) (metadata_dataset events) = Some [] ->
     process eval_expr self events = Ok (Acc.identity (accumulator self))).
Proof.
  split; [|split].
  - intros self events Hci. unfold process. rewrite Hci. reflexivity.
  - intros self events Hci Hd. unfold process.
    destruct (channel_info self) as [|ch rest]; [contradiction|].
    cbn [for_each]. unfold process_channel, getitem. rewrite Hd. reflexivity.
  - intros self events Hd. rewrite (process_with_templates _ _ _ Hd).
    replace (list_prod (channel_info self) []) with (@nil (Channel * Template));
      [reflexivity|].
    induction (channel_info self) as [|ch rest IH]; [reflexivity | exact IH].
Qed.

End ProcessEdges.

(** ** The entries a pass makes *)


Section Entries.
Variable eval_expr : string -> list Row -> evaluated.








End Entries.

(** ** Channels that share a name *)

Section SharedNames.
Variable eval_expr : string -> list Row -> evaluated.


(** X13.  Two channels of one name and different variables cannot be
    processed: the fill for the earlier channel names an axis that the one
    histogram under the name, made for the later channel, does not have.
    [process] then returns for no chunk whose dataset has a template. *)
Theorem process_refuses_shared_name_with_other_variable ci ti self events templates
    ch ch' t :
  MyProcessor_init (Some ci) (Some ti) = Ok self ->
  dict_get String.eqb ti (metadata_dataset events) = Some templates ->
  In ch ci -> In t templates ->
  last_channel (channel_name ch) ci = Some ch' ->
  variable ch' <> variable ch ->
  forall out, process eval_expr self events <> Ok out.
Proof.
  intros Hinit Hd Hch Ht Hlast Hvar out H.
  pose proof (@MyProcessor_init_ok ci ti self Hinit) as [_ Hself].
  assert (Hci : channel_info self = ci) by (rewrite Hself; reflexivity).
  assert (Hti : template_info self = ti) by (rewrite Hself; reflexivity).
  rewrite <- Hti in Hd. rewrite (process_with_templates _ _ _ Hd), Hci in H.
  destruct (@for_each_ok_each_inv _ _
              (fun o => Acc.identity o = Acc.identity (accumulator self))
              (fun o p => process_template eval_expr events (fst p) o (snd p))
              (list_prod ci templates) (Acc.identity (accumulator self)) out)
    with (x := (ch, t)) as (o1 & o2 & Ho1 & Hstep).
  - intros s1 p s2 Hs1 Hs. rewrite (process_template_keeps_axes _ _ _ _ _ Hs).
    exact Hs1.
  - apply Acc_identity_idem.
  - exact H.
  - apply in_prod; assumption.
  - cbn [fst snd] in Hstep.
    destruct (@init_histogram_of_last_channel ci ti self o1 _ ch' Hinit Ho1 Hlast)
      as (h & Hh & Hid).
    apply process_template_inv in Hstep
      as (mask & selected & observables & weights & h0 & h' & _ & _ & _ & _ & Hh0 & _ &
          Hf & _).
    rewrite Hh in Hh0. injection Hh0 as <-.
    apply Hist_fill_inv in Hf as (Haxis & _).
    apply (f_equal Hist.axis_name) in Hid. cbn in Hid. congruence.
Qed.

End SharedNames.

(** ** What a fill takes from a chunk *)

Lemma integer_of_ok q z : Np.integer_of q = Some z -> (q == inject_Z z)%Q.
Proof.
  unfold Np.integer_of. intro H.
  destruct (Qden (Qred q) =? 1)%positive eqn:E; [|discriminate].
  injection H as <-. apply Pos.eqb_eq in E.
  rewrite <- (Qred_correct q) at 1.
  destruct (Qred q) as [n d]. cbn [Qnum Qden] in *. subst d. reflexivity.
Qed.

Lemma at_position_ok rs q r :
  at_position rs q = Ok r ->
  exists z, (q == inject_Z z)%Q /\ event_at rs z = Some r.
Proof.
  unfold at_position. intro H.
  destruct (Np.integer_of q) as [z|] eqn:Hz; [|discriminate].
  exists z. split; [apply integer_of_ok, Hz|].
  unfold event_at.
  destruct (z <? 0)%Z eqn:Hneg.
  - apply Z.ltb_lt in Hneg.
    destruct ((0 <=? z + Z.of_nat (length rs))%Z &&
              (z + Z.of_nat (length rs) <? Z.of_nat (length rs))%Z)%bool eqn:Hr;
      [|discriminate].
    apply andb_true_iff in Hr as [Hlo Hhi].
    apply Z.leb_le in Hlo. apply Z.ltb_lt in Hhi.
    destruct (nth_error rs (Z.to_nat (z + Z.of_nat (length rs)))) as [r'|] eqn:Hnth;
      [|discriminate].
    injection H as <-. rewrite nth_error_rev.
    assert (Hlt : (Z.to_nat (- z - 1) <? length rs) = true) by (apply Nat.ltb_lt; lia).
    rewrite Hlt.
    replace (length rs - S (Z.to_nat (- z - 1)))
      with (Z.to_nat (z + Z.of_nat (length rs))) by lia.
    exact Hnth.
  - destruct ((0 <=? z)%Z && (z <? Z.of_nat (length rs))%Z)%bool; [|discriminate].
    destruct (nth_error rs (Z.to_nat z)) as [r'|]; [|discriminate].
    injection H as <-. reflexivity.
Qed.

Lemma at_position_raise rs q e :
  at_position rs q = Raise e -> e = Library "ValueError" "index out of range".
Proof.
  unfold at_position. intro H.
  destruct (Np.integer_of q) as [z|]; [|discriminate].
  destruct (_ && _)%bool; [|congruence].
  destruct (nth_error rs _); [discriminate | congruence].
Qed.

Lemma traverse_Forall2 {A B : Type} (f : A -> result B) (R : A -> B -> Prop) xs ys :
  (forall x y, f x = Ok y -> R x y) -> traverse f xs = Ok ys -> Forall2 R xs ys.
Proof.
  intros Hf H. apply traverse_ok in H.
  induction H; constructor; auto.
Qed.

Lemma skipn_S_tl {A : Type} k (l : list A) : skipn (S k) l = tl (skipn k l).
Proof.
  revert k; induction l as [|x l IH]; intros [|k]; try reflexivity.
  exact (IH k).
Qed.

Lemma skipn_nth_error {A : Type} k (l : list A) x :
  nth_error l k = Some x -> skipn k l = x :: skipn (S k) l.
Proof.
  revert k; induction l as [|y l IH]; intros [|k] H; try discriminate.
  - injection H as ->. reflexivity.
  - exact (IH k H).
Qed.

Lemma at_position_nat rs k r :
  at_position rs (inject_Z (Z.of_nat k)) = Ok r -> nth_error rs k = Some r.
Proof.
  intro H. apply at_position_ok in H as (z & Hz & H).
  assert (Ez : z = Z.of_nat k) by (symmetry; apply inject_Z_injective, Hz).
  subst z. unfold event_at in H.
  destruct (Z.of_nat k <? 0)%Z eqn:E; [apply Z.ltb_lt in E; lia|].
  rewrite Nat2Z.id in H. exact H.
Qed.

(** The events at the True entries of a boolean array are the events that
    pass it. *)
Lemma nonzero_passing rs m : forall k selected,
  traverse (at_position rs) (nonzero (Z.of_nat k) m) = Ok selected ->
  selected = passing (skipn k rs) m /\
  forall i, nth i m false = true -> k + i < length rs.
Proof.
  induction m as [|b m IH]; intros k selected H.
  - cbn [nonzero traverse] in H. injection H as <-. split.
    + unfold passing. destruct (skipn k rs); reflexivity.
    + intros [|i]; discriminate.
  - cbn [nonzero] in H.
    replace (Z.of_nat k + 1)%Z with (Z.of_nat (S k)) in H by lia.
    destruct b.
    + cbn [traverse] in H. apply bind_ok in H as (r & Hr & H).
      apply bind_ok in H as (ys & Hys & H).
      assert (Hsel : selected = r :: ys) by congruence. clear H.
      apply at_position_nat in Hr.
      destruct (IH (S k) ys Hys) as [Hp Hb]. split.
      * rewrite (skipn_nth_error _ _ Hr). rewrite Hsel, Hp. reflexivity.
      * intros [|i] Hi.
        -- assert (Hlt : nth_error rs k <> None) by congruence.
           apply nth_error_Some in Hlt. lia.
        -- specialize (Hb i Hi). lia.
    + destruct (IH (S k) selected H) as [Hp Hb]. split.
      * rewrite Hp, skipn_S_tl. unfold passing.
        destruct (skipn k rs) as [|r l]; [destruct m|]; reflexivity.
      * intros [|i] Hi; [discriminate|]. specialize (Hb i Hi). lia.
Qed.

(** What [events[v]] returns are the events that [v] selects. *)
Lemma events_getitem_ok rs v selected :
  events_getitem rs v = Ok selected -> selects rs v selected.
Proof.
  destruct v as [m | dt c]; cbn [events_getitem].
  - intro H. apply (nonzero_passing rs m 0) in H as [-> Hb].
    cbn [skipn]. constructor. exact Hb.
  - destruct dt as [bits | bits | |]; try discriminate; intro H.
    + constructor; [exists bits; auto|].
      exact (@traverse_Forall2 _ _ (at_position rs) _ c selected (at_position_ok rs) H).
    + constructor; [exists bits; auto|].
      exact (@traverse_Forall2 _ _ (at_position rs) _ c selected (at_position_ok rs) H).
Qed.

Lemma events_getitem_raise rs v e :
  events_getitem rs v = Raise e -> exists class what, e = Library class what.
Proof.
  destruct v as [m | dt c]; cbn [events_getitem].
  - intro H. apply traverse_raise in H as (q & _ & H). apply at_position_raise in H.
    subst e; eauto.
  - destruct dt as [bits | bits | |]; intro H;
      try (injection H as <-; eauto; fail);
      apply traverse_raise in H as (q & _ & H); apply at_position_raise in H;
      subst e; eauto.
Qed.

Lemma wrap_signed bits v :
  exists k : Z,
    Np.wrap (Np.Int bits) v = (v + k * 2 ^ Zpos bits)%Z /\
    (- 2 ^ (Zpos bits - 1) <= v + k * 2 ^ Zpos bits < 2 ^ (Zpos bits - 1))%Z.
Proof.
  cbn [Np.wrap].
  assert (Hpow : (2 ^ Zpos bits = 2 * 2 ^ (Zpos bits - 1))%Z).
  { rewrite <- Z.pow_succ_r by lia. f_equal. lia. }
  assert (Hpos : (0 < 2 ^ (Zpos bits - 1))%Z) by (apply Z.pow_pos_nonneg; lia).
  pose proof (Z.div_mod (v + 2 ^ (Zpos bits - 1)) (2 ^ Zpos bits)) as Hdm.
  pose proof (Z.mod_pos_bound (v + 2 ^ (Zpos bits - 1)) (2 ^ Zpos bits)) as Hb.
  exists (- ((v + 2 ^ (Zpos bits - 1)) / 2 ^ Zpos bits))%Z.
  split; nia.
Qed.

Lemma wrap_unsigned bits v :
  exists k : Z,
    Np.wrap (Np.UInt bits) v = (v + k * 2 ^ Zpos bits)%Z /\
    (0 <= v + k * 2 ^ Zpos bits < 2 ^ Zpos bits)%Z.
Proof.
  cbn [Np.wrap].
  assert (Hpos : (0 < 2 ^ Zpos bits)%Z) by (apply Z.pow_pos_nonneg; lia).
  pose proof (Z.div_mod v (2 ^ Zpos bits)) as Hdm.
  pose proof (Z.mod_pos_bound v (2 ^ Zpos bits)) as Hb.
  exists (- (v / 2 ^ Zpos bits))%Z.
  split; nia.
Qed.

(** [x ** 2] is the square as the dtype holds it. *)
Lemma square_ok dt x y : Np.square dt x = Ok y -> square_in dt x y.
Proof.
  unfold Np.square. destruct (Np.fits dt x); [|discriminate]. cbn [negb].
  destruct dt as [bits | bits | |]; cbn [square_in].
  - destruct (Np.integer_of x) as [z|] eqn:Hz; [|discriminate].
    intro H.
    assert (Hy : y = inject_Z (Np.wrap (Np.Int bits) (z * z))) by congruence.
    subst y. clear H.
    destruct (wrap_signed bits (z * z)) as (k & -> & Hk).
    exists z, k. split; [apply integer_of_ok, Hz | auto].
  - destruct (Np.integer_of x) as [z|] eqn:Hz; [|discriminate].
    intro H.
    assert (Hy : y = inject_Z (Np.wrap (Np.UInt bits) (z * z))) by congruence.
    subst y. clear H.
    destruct (wrap_unsigned bits (z * z)) as (k & -> & Hk).
    exists z, k. split; [apply integer_of_ok, Hz | auto].
  - destruct (Np.is_float32 (x * x)); [|discriminate]. intro H. injection H as <-.
    reflexivity.
  - intro H. apply float64_ok in H. exact H.
Qed.

Lemma squared_weights_ok weights w2 :
  squared_weights weights = Ok w2 -> squares_of weights w2.
Proof.
  unfold squared_weights. intro H. apply bind_ok in H as (weight2 & Hsq & H).
  apply as_float_ok in H. subst w2.
  destruct weights as [m | dt c]; cbn [squared] in Hsq.
  - injection Hsq as <-. reflexivity.
  - apply bind_ok in Hsq as (c' & Hc' & Hsq). injection Hsq as <-.
    cbn [squares_of numbers].
    exact (@traverse_Forall2 _ _ (Np.square dt) _ c c' (square_ok dt) Hc').
Qed.

Section Takes.
Variable eval_expr : string -> list Row -> evaluated.

Lemma eval_ok source events v :
  eval eval_expr source events = Ok v ->
  exists s, source = Some s /\ eval_expr s events = Gives v.
Proof.
  unfold eval. destruct source as [s|]; [|discriminate].
  destruct (eval_expr s events) as [v'|c] eqn:E; [|discriminate].
  intro H. injection H as <-. exists s. auto.
Qed.

Lemma eval_raise source events e :
  eval eval_expr source events = Raise e ->
  (source = None /\ e = TypeError) \/
  (exists s class, source = Some s /\ eval_expr s events = Throws class /\
                   e = Evaluated class).
Proof.
  unfold eval. destruct source as [s|].
  - destruct (eval_expr s events) as [v|c] eqn:E; [discriminate|].
    intro H. injection H as <-. right. exists s, c. auto.
  - intro H. injection H as <-. left. auto.
Qed.

(** What a completed loop body has taken and filled in. *)
Lemma process_template_takes events ch out t out' :
  process_template eval_expr events ch out t = Ok out' ->
  exists a h h',
    takes eval_expr events ch t a /\
    template_arrays eval_expr events ch t = Ok (taken_x a, taken_w a) /\
    dict_get String.eqb out (channel_name ch) = Some h /\
    Hist.axis_name h = variable ch /\
    out' = setitem String.eqb out (channel_name ch) h' /\
    Hist.identity h' = Hist.identity h /\
    (well_shaped h ->
     well_shaped h' /\
     forall b, S b < length (Hist.edges h) ->
       (nth b (yields h' (metadata_dataset events, template_name t)) 0 ==
        nth b (yields h (metadata_dataset events, template_name t)) 0 +
        sumw_in_bin (Hist.edges h) b (taken_x a) (taken_w a))%Q /\
       (nth b (sumw2 h' (metadata_dataset events, template_name t)) 0 ==
        nth b (sumw2 h (metadata_dataset events, template_name t)) 0 +
        sumw_in_bin (Hist.edges h) b (taken_x a) (taken_w2 a))%Q) /\
    (forall key, key <> (metadata_dataset events, template_name t) ->
       Hist.cell h' key = Hist.cell h key) /\
    (exists c,
       h' = Hist.with_content h
              (setitem key2_eqb (Hist.content h)
                 (metadata_dataset events, template_name t) c)).
Proof.
  intro H.
  apply process_template_inv in H
    as (mask & selected & observables & weights & h & h' & Hm & Hs & Ho & Hwt & Hh & _ &
        Hf & ->).
  pose proof (Hist_fill_inv _ _ _ _ _ _ Hf)
    as (Haxis & x & w & w2 & counts & counts2 & s1 & s2 & Hx & Hw & Hw2 & _ & _ & _ & _ &
        Hh').
  exists {| taken_events := selected; taken_x := x; taken_w := w; taken_w2 := w2 |}, h, h'.
  cbn [taken_events taken_x taken_w taken_w2].
  pose proof (as_float_ok _ Hx) as Hxn.
  pose proof (length_as_float _ Hx) as Hxl.
  split; [|split; [|split; [exact Hh | split; [exact Haxis | split; [reflexivity|]]]]].
  - apply eval_ok in Hm as (f & Hflt & Hm).
    apply eval_ok in Ho as (var & Hvar & Ho). injection Hvar as <-.
    split; [|split]; cbn [taken_events taken_x taken_w taken_w2].
    + exists f, mask. split; [exact Hflt|]. split; [exact Hm|].
      apply events_getitem_ok, Hs.
    + exists observables. auto.
    + destruct (weight t) as [expression|].
      * apply eval_ok in Hwt as (s & Hs' & Hwt). injection Hs' as <-.
        exists weights. split; [exact Hwt|].
        split; [apply (as_float_ok _ Hw) | apply squared_weights_ok, Hw2].
      * subst weights. rewrite as_float_ones in Hw. injection Hw as <-.
        rewrite squared_weights_ones in Hw2. injection Hw2 as <-.
        rewrite Hxl. split; reflexivity.
  - unfold template_arrays. rewrite Hm. cbn [bind]. rewrite Hs. cbn [bind].
    rewrite Ho. cbn [bind].
    destruct (weight t) as [expression|].
    + rewrite Hwt. cbn [bind]. rewrite Hx. cbn [bind]. rewrite Hw. reflexivity.
    + subst weights. cbn [bind]. rewrite Hx. cbn [bind]. rewrite Hw. reflexivity.
  - split; [|split; [|split]].
    + rewrite Hh'. reflexivity.
    + intro Hshape. split; [exact (Hist_fill_well_shaped _ _ _ _ _ Hf Hshape)|].
      destruct (fill_adds_to_bin _ _ _ _ _ Hf Hshape)
        as (x' & w' & w2' & Hx' & Hw' & Hw2' & Hsum).
      rewrite Hx in Hx'. rewrite Hw in Hw'. rewrite Hw2 in Hw2'.
      injection Hx' as <-. injection Hw' as <-. injection Hw2' as <-.
      exact Hsum.
    + intros key Hkey. rewrite Hh'. apply cell_with_content_other. congruence.
    + exists (s1, s2). exact Hh'.
Qed.

End Takes.
(** ** What a pass leaves in the histograms *)


Lemma edges_identity h h' :
  Hist.identity h' = Hist.identity h -> Hist.edges h' = Hist.edges h.
Proof. intro H. exact (f_equal Hist.edges H). Qed.

Section Sums.
Variable eval_expr : string -> list Row -> evaluated.





End Sums.

(** ** Bins as intervals *)





Lemma total_ext {A : Type} (f g : A -> Q) (l : list A) :
  Forall (fun a => (f a == g a)%Q) l -> (total (map f l) == total (map g l))%Q.
Proof.
  induction 1 as [|a l Ha _ IH]; [reflexivity|].
  cbn [map total fold_right]. fold (total (map f l)). fold (total (map g l)).
  rewrite Ha, IH. reflexivity.
Qed.


(** ** One pass over a chunk: every channel, every template *)




Section Pass.
Variable eval_expr : string -> list Row -> evaluated.




End Pass.

(** ** Where exceptions come from *)

Lemma iadd_raise_library a b e :
  Np.iadd a b = Raise e ->
  e = Library "ValueError" "operands could not be broadcast together".
Proof.
  revert b; induction a as [|x a IH]; intros [|y b] H; cbn [Np.iadd] in H;
    try discriminate; try congruence.
  apply bind_raise in H as [H | (s & _ & H)]; [exfalso; exact (add_raise _ _ H)|].
  apply bind_raise in H as [H | (rest & _ & H)]; [|discriminate].
  exact (IH _ H).
Qed.

Lemma bincount_raise_library xy weights n e :
  Np.bincount xy weights n = Raise e ->
  e = Library "ValueError" "The weights and list don't have the same length.".
Proof.
  unfold Np.bincount.
  destruct (negb (length weights =? length xy)%nat); [congruence|].
  intro H. apply traverse_raise in H as (i & _ & H).
  exfalso. exact (sum_at_raise _ _ _ _ H).
Qed.

Lemma Hist_fill_raise_library h dataset template weight variable observables e :
  Hist.fill h dataset template weight variable observables = Raise e ->
  exists what, e = Library "ValueError" what.
Proof.
  unfold Hist.fill. intro H.
  destruct (negb (Hist.axis_name h =? variable)%string).
  { injection H as <-. eauto. }
  apply bind_raise in H as [H | (x & _ & H)]; [exfalso; exact (as_float_raise _ H)|].
  apply bind_raise in H as [H | (w & _ & H)]; [exfalso; exact (as_float_raise _ H)|].
  apply bind_raise in H as [H | (counts & _ & H)].
  { apply bincount_raise_library in H. eauto. }
  apply bind_raise in H as [H | (s1 & _ & H)].
  { apply iadd_raise_library in H. eauto. }
  apply bind_raise in H as [H | (weight2 & _ & H)];
    [exfalso; exact (squared_raise _ H)|].
  apply bind_raise in H as [H | (w2 & _ & H)]; [exfalso; exact (as_float_raise _ H)|].
  apply bind_raise in H as [H | (counts2 & _ & H)].
  { apply bincount_raise_library in H. eauto. }
  apply bind_raise in H as [H | (s2 & _ & H)]; [|discriminate].
  apply iadd_raise_library in H. eauto.
Qed.

Lemma Hist_add_raise h other e :
  Hist.add h other = Raise e -> exists what, e = Library "ValueError" what.
Proof.
  unfold Hist.add. destruct (negb (Hist.compatible h other)).
  { intro H. injection H as <-. eauto. }
  intro H. apply for_each_raise in H as (acc & kv & _ & H).
  unfold Hist.add_entry in H.
  apply bind_raise in H as [H | (entry & _ & H)]; [|discriminate].
  destruct (dict_get key2_eqb (Hist.content acc) (fst kv)) as [mine|]; [|discriminate].
  apply bind_raise in H as [H | (s2 & _ & H)].
  { apply iadd_raise_library in H. eauto. }
  apply bind_raise in H as [H | (s1 & _ & H)]; [|discriminate].
  apply iadd_raise_library in H. eauto.
Qed.

Lemma Acc_add_raise a other e :
  Acc.add a other = Raise e -> exists what, e = Library "ValueError" what.
Proof.
  unfold Acc.add. intro H.
  apply for_each_raise in H as (acc & kv & _ & H).
  apply bind_raise in H as [H | (h & _ & H)]; [|discriminate].
  exact (Hist_add_raise _ _ H).
Qed.

Lemma Acc_plus_raise a other e :
  Acc.plus a other = Raise e -> exists what, e = Library "ValueError" what.
Proof.
  unfold Acc.plus. intro H.
  apply bind_raise in H as [H | (ret & _ & H)]; exact (Acc_add_raise _ _ H).
Qed.

Lemma work_items_raise store fileset e :
  work_items store fileset = Raise e ->
  e = Library "KeyInFileError" "not found" \/
  e = Library "FileNotFoundError" "file not found".
Proof.
  unfold work_items. intro H.
  apply for_each_raise in H as (items & kv & _ & H).
  apply bind_raise in H as [H | (more & _ & H)]; [|discriminate].
  unfold dataset_items in H.
  apply for_each_raise in H as (items' & file & _ & H).
  destruct (dict_get _ _ _); [discriminate|].
  destruct (existsb _ store); injection H as <-; auto.
Qed.

Lemma work_function_ok function item out :
  work_function function item = Ok out -> function item = Ok out.
Proof.
  unfold work_function. destruct (function item); intro H;
    try discriminate; exact H.
Qed.

Lemma work_function_returns function item out :
  function item = Ok out -> work_function function item = Ok out.
Proof. unfold work_function. intros ->. reflexivity. Qed.

Lemma work_function_raise function item e :
  work_function function item = Raise e ->
  exists cause, e = FailedProcessing cause /\ function item = Raise cause.
Proof.
  unfold work_function. destruct (function item) as [out|cause|]; try discriminate.
  intro H. injection H as <-. eauto.
Qed.

Lemma iterative_executor_raise items (function : Events -> result Accumulator) e :
  iterative_executor items function None = Raise e ->
  (exists item, In item items /\ function item = Raise e) \/
  (exists what, e = Library "ValueError" what).
Proof.
  unfold iterative_executor. destruct items as [|first rest]; [discriminate|].
  intro H. apply bind_raise in H as [H | (accum & _ & H)].
  { left. exists first. split; [left; reflexivity | exact H]. }
  destruct rest as [|second rest']; [discriminate|].
  apply bind_raise in H as [H | (out & _ & H)].
  { left. exists second. split; [right; left; reflexivity | exact H]. }
  apply bind_raise in H as [H | (accum' & _ & H)].
  { right. exact (Acc_plus_raise _ _ H). }
  apply bind_raise in H as [H | (accum'' & _ & H)]; [|discriminate].
  apply for_each_raise in H as (acc & item & Hin & H).
  apply bind_raise in H as [H | (out' & _ & H)].
  - left. exists item. split; [right; right; exact Hin | exact H].
  - right. exact (Acc_add_raise _ _ H).
Qed.

Section Exceptions.
Variable eval_expr : string -> list Row -> evaluated.

(** The five ways in which the loop body raises. *)
Lemma process_template_raise events ch out t e :
  process_template eval_expr events ch out t = Raise e ->
  (selection_filter t = None /\ e = TypeError) \/
  (exists class, e = Evaluated class) \/
  (exists class what, e = Library class what) \/
  (dict_get String.eqb out (channel_name ch) = None /\ e = KeyError) \/
  (In (variable ch) fill_keywords /\ e = TypeError).
Proof.
  unfold process_template. intro H.
  apply bind_raise in H as [H | (mask & _ & H)].
  { apply eval_raise in H as [[Hf ->] | (s & c & _ & _ & ->)]; [left; auto|].
    right; left. eauto. }
  apply bind_raise in H as [H | (selected & _ & H)].
  { apply events_getitem_raise in H as (c & what & ->). right; right; left. eauto. }
  apply bind_raise in H as [H | (observables & _ & H)].
  { apply eval_raise in H as [[Hf _] | (s & c & _ & _ & ->)]; [discriminate|].
    right; left. eauto. }
  apply bind_raise in H as [H | (weights & _ & H)].
  { destruct (weight t) as [expression|]; [|discriminate].
    apply eval_raise in H as [[Hf _] | (s & c & _ & _ & ->)]; [discriminate|].
    right; left. eauto. }
  apply bind_raise in H as [H | (h & _ & H)].
  { right; right; right; left. unfold getitem in H.
    destruct (dict_get String.eqb out (channel_name ch)); [discriminate|].
    injection H as <-. auto. }
  destruct (existsb (String.eqb (variable ch)) fill_keywords) eqn:Hk.
  { injection H as <-. right; right; right; right. split; [|reflexivity].
    apply existsb_exists in Hk as (k & Hin & Hk). apply String.eqb_eq in Hk.
    subst k. exact Hin. }
  apply bind_raise in H as [H | (h' & _ & H)]; [|discriminate].
  apply Hist_fill_raise_library in H as (what & ->). right; right; left. eauto.
Qed.

Lemma process_template_raised events ch out t e :
  process_template eval_expr events ch out t = Raise e -> raised_in_process e.
Proof.
  intro H. apply process_template_raise in H
    as [[_ ->] | [(c & ->) | [(c & what & ->) | [[_ ->] | [_ ->]]]]]; constructor.
Qed.

(** [process] raises on the subscript [template_info[dataset]] or in the
    loop body. *)
Lemma process_raise self events e :
  process eval_expr self events = Raise e ->
  (dict_get String.eqb (template_info self) (metadata_dataset events) = None /\
   e = KeyError) \/
  (exists ch t out,
     In ch (channel_info self) /\
     process_template eval_expr events ch out t = Raise e).
Proof.
  unfold process. intro H.
  apply for_each_raise in H as (out & ch & Hch & H).
  unfold process_channel in H.
  apply bind_raise in H as [H | (templates & _ & H)].
  { left. unfold getitem in H.
    destruct (dict_get String.eqb (template_info self) (metadata_dataset events));
      [discriminate|].
    injection H as <-. auto. }
  apply for_each_raise in H as (out' & t & _ & H).
  right. exists ch, t, out'. auto.
Qed.

Lemma process_raised self events e :
  process eval_expr self events = Raise e -> raised_in_process e.
Proof.
  intro H. apply process_raise in H as [[_ ->] | (ch & t & out & _ & H)].
  - constructor.
  - exact (process_template_raised _ _ _ _ H).
Qed.

Lemma run_job_raise store j e :
  job_executor j = iterative_executor ->
  run_job eval_expr store j = Raise e -> raised_in_job e.
Proof.
  intros Hexec H. unfold run_job in H. rewrite Hexec in H.
  apply bind_raise in H as [H | (items & _ & H)].
  { apply work_items_raise in H as [-> | ->]; constructor. }
  apply bind_raise in H as [H | (wrapped & _ & H)].
  - apply iterative_executor_raise in H as [(item & _ & H) | (what & ->)];
      [|constructor].
    apply work_function_raise in H as (cause & -> & H).
    constructor. exact (process_raised _ _ H).
  - destruct wrapped; [discriminate|]. injection H as <-. constructor.
Qed.

End Exceptions.

(** ** Computations on the world *)

Lemma io_bind_raise {A B : Type} (c : IO A) (k : A -> IO B) (w : World) (e : exn) :
  snd (io_bind c k w) = Raise e ->
  snd (c w) = Raise e \/
  exists a w', c w = (w', Ok a) /\ snd (k a w') = Raise e.
Proof.
  unfold io_bind. destruct (c w) as [w' [a|e'|]]; simpl; intro H.
  - right; exists a, w'; auto.
  - left; congruence.
  - discriminate.
Qed.

Lemma io_for_each_raise {A : Type} (xs : list A) (body : A -> IO unit) (w : World)
    (e : exn) :
  snd (io_for_each xs body w) = Raise e ->
  exists x w', In x xs /\ snd (body x w') = Raise e.
Proof.
  revert w; induction xs as [|x xs IH]; intro w; simpl; [discriminate|].
  intro H. apply io_bind_raise in H as [H | (a & w' & _ & H)].
  - exists x, w; auto.
  - destruct (IH _ H) as (y & w1 & Hin & Hy). exists y, w1; auto.
Qed.


















Section Loop.
Variable np_sqrt : Q -> Q.
Variable format_array : list Q -> string.


Lemma read_histograms_raise channel_info template_info result w e :
  snd (read_histograms np_sqrt format_array channel_info template_info result w) = Raise e ->
  e = KeyError.
Proof.
  unfold read_histograms. intro H.
  apply io_for_each_raise in H as (ch & w1 & _ & H).
  apply io_bind_raise in H as [H | (? & w2 & _ & H)]; [discriminate|].
  apply io_for_each_raise in H as (ds & w3 & _ & H).
  apply io_bind_raise in H as [H | (? & w4 & _ & H)]; [discriminate|].
  apply io_bind_raise in H as [H | (tems & w5 & _ & H)]; [apply getitem_raise in H; exact H|].
  apply io_for_each_raise in H as (tem & w6 & _ & H).
  apply io_bind_raise in H as [H | (? & w7 & _ & H)]; [discriminate|].
  apply io_bind_raise in H as [H | (h & w8 & _ & H)]; [apply getitem_raise in H; exact H|].
  apply io_bind_raise in H as [H | ([yields variance] & w9 & _ & H)];
    [apply getitem_raise in H; exact H|].
  apply io_bind_raise in H as [H | (? & w10 & _ & H)]; discriminate.
Qed.

End Loop.

(** ** The cells that call the backend, in one step *)

Lemma channel_histograms_single ch :
  channel_histograms [ch] = [(channel_name ch, channel_histogram ch)].
Proof. reflexivity. Qed.

Section Cells.
Variable eval_expr : string -> list Row -> evaluated.
Variable backend_effect : Job -> World -> World.
Variable Path : Type.
Variable str : Path -> string.
Variable np_sqrt : Q -> Q.

(** [build_single_histogram] makes its processor, hands its job to the
    backend and reads one entry of the result; without a processor it stops
    before the backend is called. *)
Lemma build_single_histogram_eq ntuple_paths pos_in_file variable bins weight
    selection_filter w :
  build_single_histogram eval_expr backend_effect str np_sqrt ntuple_paths pos_in_file
    variable bins weight selection_filter w =
  match MyProcessor_init (Some [single_channel variable bins])
          (Some [("generic_name"%string, [single_template weight selection_filter])]) with
  | Ok processor_instance =>
      let job := {| job_fileset :=
                      [("generic_name"%string,
                        {| treename := pos_in_file; files := map str ntuple_paths |})];
                    job_treename := None;
                    job_processor_instance := processor_instance;
                    job_executor := iterative_executor;
                    job_executor_args := {| schema := BaseSchema |} |} in
      (after_job backend_effect job w,
       read_single np_sqrt (run_job eval_expr (storage w) job))
  | Raise e => (w, Raise e)
  | Inexact => (w, Inexact)
  end.
Proof.
  unfold build_single_histogram.
  change {| channel_name := "generic_channel_name"; variable := variable;
            observable_label := "generic_label"; binning := bins |}
    with (single_channel variable bins).
  change {| template_name := "generic_template_name"; weight := weight;
            selection_filter := selection_filter |}
    with (single_template weight selection_filter).
  unfold io_bind at 1. unfold io_lift at 1.
  destruct (MyProcessor_init _ _) as [p|e|]; [|reflexivity|reflexivity].
  cbv zeta. unfold io_bind at 1. unfold run_uproot_job. unfold after_job, read_single.
  destruct (run_job eval_expr (storage w) _) as [result|e|]; cbn [bind];
    [|reflexivity|reflexivity].
  unfold io_bind at 1. unfold io_lift at 1.
  destruct (getitem String.eqb result "generic_channel_name"%string) as [h|e|];
    cbn [bind]; [|reflexivity|reflexivity].
  unfold io_bind at 1. unfold io_lift at 1.
  destruct (getitem key2_eqb (Hist.values h) _) as [[yields variance]|e|];
    cbn [bind]; reflexivity.
Qed.

(** The processor of a call, when [hist.Bin] accepts the axis. *)
Lemma single_processor_init variable bins weight selection_filter p :
  MyProcessor_init (Some [single_channel variable bins])
    (Some [("generic_name"%string, [single_template weight selection_filter])]) = Ok p ->
  accepts_axis (single_channel variable bins) /\
  p = single_histogram_processor variable bins weight selection_filter.
Proof.
  intro H. apply MyProcessor_init_ok in H as [Hacc ->].
  split; [exact (Forall_inv Hacc) | reflexivity].
Qed.

Lemma single_processor_accepted variable bins weight selection_filter :
  accepts_axis (single_channel variable bins) ->
  MyProcessor_init (Some [single_channel variable bins])
    (Some [("generic_name"%string, [single_template weight selection_filter])])
  = Ok (single_histogram_processor variable bins weight selection_filter).
Proof.
  intro H. rewrite MyProcessor_init_accepted by (constructor; [exact H | constructor]).
  reflexivity.
Qed.

(** A call that returns has handed its job to the backend. *)
Lemma build_single_histogram_ok ntuple_paths pos_in_file variable bins weight
    selection_filter w r :
  snd (build_single_histogram eval_expr backend_effect str np_sqrt ntuple_paths
         pos_in_file variable bins weight selection_filter w) = Ok r ->
  accepts_axis (single_channel variable bins) /\
  read_single np_sqrt
    (run_job eval_expr (storage w)
       (single_histogram_job (map str ntuple_paths) pos_in_file variable bins weight
          selection_filter)) = Ok r.
Proof.
  rewrite build_single_histogram_eq.
  destruct (MyProcessor_init _ _) as [p|e|] eqn:Hinit; try discriminate.
  apply single_processor_init in Hinit as [Hacc ->].
  cbv zeta. cbn [snd]. intro H. split; [exact Hacc | exact H].
Qed.

Lemma example_channel_accepted : Forall accepts_axis example_channel_info.
Proof.
  constructor; [|constructor].
  split; [discriminate|]. split; [repeat constructor|].
  split; [|discriminate].
  apply sorted_StronglySorted. reflexivity.
Qed.

Lemma example_run_eq w :
  example_run eval_expr backend_effect w =
  (after_job backend_effect example_job w, run_job eval_expr (storage w) example_job).
Proof.
  unfold example_run.
  rewrite (MyProcessor_init_accepted example_template_info example_channel_accepted).
  reflexivity.
Qed.

End Cells.

(** ** From the job to the reading loop *)

Section AccAdd.
Variables (c : string) (key : string * string).







End AccAdd.




Lemma executor_none (function : Events -> result Accumulator) items :
  iterative_executor items function None = Ok None -> items = [].
Proof.
  unfold iterative_executor. destruct items as [|first rest]; [reflexivity|].
  intro H. apply bind_ok in H as (accum & _ & H).
  destruct rest as [|second rest']; [discriminate|].
  apply bind_ok in H as (out2 & _ & H).
  apply bind_ok in H as (accum' & _ & H).
  apply bind_ok in H as (accum'' & _ & H). discriminate.
Qed.

(** What a job that returned has run. *)
Lemma run_job_ok eval_expr store job result :
  job_executor job = iterative_executor ->
  run_job eval_expr store job = Ok result ->
  exists items,
    work_items store (job_fileset job) = Ok items /\
    iterative_executor items
      (work_function (process eval_expr (job_processor_instance job))) None
    = Ok (Some result).
Proof.
  intros Hexec H. unfold run_job in H. rewrite Hexec in H.
  apply bind_ok in H as (items & Hitems & H).
  apply bind_ok in H as (wrapped & Hrun & H).
  destruct wrapped as [out|]; [|discriminate].
  unfold postprocess in H. injection H as <-.
  exists items. auto.
Qed.

Section JobEntries.
Variable eval_expr : string -> list Row -> evaluated.


End JobEntries.

Section ReadAfterJob.
Variable eval_expr : string -> list Row -> evaluated.
Variable np_sqrt : Q -> Q.
Variable format_array : list Q -> string.


End ReadAfterJob.

(** ** A dataset that had no chunk *)






Section MissingDataset.
Variable eval_expr : string -> list Row -> evaluated.
Variable np_sqrt : Q -> Q.
Variable format_array : list Q -> string.






End MissingDataset.

(** ** What a job of build_single_histogram adds up *)

Lemma yields_with_content h key entry :
  yields (Hist.with_content h (setitem key2_eqb (Hist.content h) key entry)) key =
  Np.slice_1_m2 (fst entry) /\
  sumw2 (Hist.with_content h (setitem key2_eqb (Hist.content h) key entry)) key =
  Np.slice_1_m2 (snd entry).
Proof. unfold yields, sumw2. rewrite cell_with_content. auto. Qed.

Lemma size_identity h h' : Hist.identity h' = Hist.identity h -> Hist.size h' = Hist.size h.
Proof. intro H. unfold Hist.size. rewrite (edges_identity H). reflexivity. Qed.

Section SingleHistogram.
Variable eval_expr : string -> list Row -> evaluated.
Variables (var : string) (bins : list Q) (wt flt : option string).

Let name : string := "generic_channel_name".
Let key : string * string := ("generic_name", "generic_template_name")%string.
Let H0 : Hist.t := Hist.mk "events" var "generic_label" bins [].
Let ch : Channel := single_channel var bins.
Let t : Template := single_template wt flt.
Let p : MyProcessor := single_histogram_processor var bins wt flt.

(** One chunk through the processor of [build_single_histogram]: a fresh
    histogram filled once. *)
Lemma single_histogram_process item out :
  process eval_expr p item = Ok out ->
  exists a,
    takes eval_expr item ch t a /\
    template_arrays eval_expr item ch t = Ok (taken_x a, taken_w a) /\
    holds_sums var bins out [a].
Proof.
  intro H. unfold process in H.
  change (Acc.identity (accumulator p)) with [(name, H0)] in H.
  change (channel_info p) with [ch] in H.
  cbn [for_each] in H. apply bind_ok in H as (o & H & Ho). injection Ho as <-.
  unfold process_channel, getitem in H.
  change (template_info p) with [("generic_name"%string, [t])] in H.
  cbn [dict_get] in H.
  destruct ("generic_name" =? metadata_dataset item)%string eqn:E; [|discriminate].
  apply String.eqb_eq in E.
  cbn [bind for_each] in H. apply bind_ok in H as (o1 & H & Ho). injection Ho as <-.
  apply process_template_takes in H
    as (a & h & h' & Htakes & Harr & Hh & _ & -> & Hid & Hnum & _ & (c & Hc)).
  change (dict_get String.eqb [(name, H0)] (channel_name ch)) with (Some H0) in Hh.
  injection Hh as <-. rewrite <- E in Hnum, Hc.
  change (template_name t) with "generic_template_name"%string in Hnum, Hc.
  fold key in Hnum, Hc.
  exists a. split; [exact Htakes|]. split; [exact Harr|].
  destruct (Hnum (@well_shaped_identity H0)) as [Hshape Hsum].
  exists h'. split; [reflexivity|]. split; [exact Hid|]. split; [exact Hshape|].
  split; [right; exists c; rewrite Hc; reflexivity|].
  intros b Hb. destruct (Hsum b Hb) as [Hy Hv].
  destruct (@yields_fresh H0 key b eq_refl) as [Hy0 Hv0].
  rewrite Hy0 in Hy. rewrite Hv0 in Hv.
  cbn [map total fold_right]. fold key. rewrite Hy, Hv.
  change (Hist.edges H0) with bins.
  split; ring.
Qed.

Lemma holds_sums_identity acc fills :
  holds_sums var bins acc fills -> holds_sums var bins (Acc.identity acc) [].
Proof.
  intros (h & -> & Hid & _). exists (Hist.identity h).
  split; [reflexivity|]. split; [rewrite <- Hid; reflexivity|].
  split; [apply well_shaped_identity|]. split; [left; reflexivity|].
  intros b _. fold key.
  destruct (@yields_fresh (Hist.identity h) key b eq_refl) as [-> ->].
  split; reflexivity.
Qed.

(** Adding an output to the accumulator adds its sums. *)
Lemma holds_sums_add acc A out B acc' :
  holds_sums var bins acc A -> holds_sums var bins out B ->
  Acc.add acc out = Ok acc' ->
  holds_sums var bins acc' (A ++ B).
Proof.
  intros (h & -> & Hid & Hshape & Hcontent & Hsum)
         (ho & -> & Hido & Hshapeo & Hcontento & Hsumo) Hadd.
  fold key in Hcontent, Hsum, Hcontento, Hsumo.
  unfold Acc.add in Hadd. cbn [for_each fst snd dict_get] in Hadd.
  rewrite String.eqb_refl in Hadd.
  apply bind_ok in Hadd as (acc1 & Hstep & Hadd). injection Hadd as <-.
  apply bind_ok in Hstep as (h' & Hh' & Hstep). injection Hstep as <-.
  pose proof (Hist_add_identity _ _ Hh') as Hid'.
  assert (Hsize : Hist.size ho = Hist.size h).
  { apply size_identity. rewrite Hid, Hido. reflexivity. }
  assert (Hbins : Hist.size h = length bins + 2).
  { unfold Hist.size. apply (f_equal Hist.edges) in Hid. cbn in Hid. rewrite Hid.
    reflexivity. }
  exists h'. split; [reflexivity|]. split; [rewrite Hid'; exact Hid|].
  fold key.
  assert (Htotal : forall (f : Taken -> Q),
            (total (map f (A ++ B)) == total (map f A) + total (map f B))%Q)
    by (intro f; rewrite map_app; apply total_app).
  unfold Hist.add in Hh'. destruct (negb (Hist.compatible h ho)); [discriminate|].
  destruct Hcontento as [Hempty | (c & Hc)].
  - rewrite Hempty in Hh'. injection Hh' as <-.
    split; [exact Hshape|]. split; [exact Hcontent|].
    intros b Hb. destruct (Hsum b Hb) as [Hy Hv]. destruct (Hsumo b Hb) as [Hyo Hvo].
    assert (Hnone : dict_get key2_eqb (Hist.content ho) key = None)
      by (rewrite Hempty; reflexivity).
    destruct (@yields_fresh ho key b Hnone) as [Hy0 Hv0].
    rewrite Hy0 in Hyo. rewrite Hv0 in Hvo.
    rewrite !Htotal, <- Hyo, <- Hvo, Hy, Hv. split; ring.
  - rewrite Hc in Hh'. cbn [for_each] in Hh'.
    apply bind_ok in Hh' as (h1 & Hentry & Hh'). injection Hh' as <-.
    apply add_entry_inv in Hentry as (entry & -> & Hmatch).
    cbn [fst snd] in Hmatch |- *.
    assert (Hgeto : dict_get key2_eqb (Hist.content ho) key = Some c).
    { rewrite Hc. cbn [dict_get]. rewrite (proj2 (key2_eqb_spec key key) eq_refl).
      reflexivity. }
    destruct (Hshapeo _ _ Hgeto) as [Hc1 Hc2].
    destruct (yields_with_content h key entry) as [Hye Hve].
    assert (Hyo' : yields ho key = Np.slice_1_m2 (fst c))
      by (unfold yields, Hist.cell; rewrite Hgeto; reflexivity).
    assert (Hvo' : sumw2 ho key = Np.slice_1_m2 (snd c))
      by (unfold sumw2, Hist.cell; rewrite Hgeto; reflexivity).
    destruct Hcontent as [Hhe | (m & Hm)].
    + assert (Hnone : dict_get key2_eqb (Hist.content h) key = None)
        by (rewrite Hhe; reflexivity).
      rewrite Hnone in Hmatch. subst entry.
      split; [|split].
      * apply well_shaped_setitem; [exact Hshape | |]; congruence.
      * right. exists c. cbn [Hist.with_content Hist.content]. rewrite Hhe. reflexivity.
      * intros b Hb. destruct (Hsum b Hb) as [Hy Hv]. destruct (Hsumo b Hb) as [Hyo Hvo].
        destruct (@yields_fresh h key b Hnone) as [Hy0 Hv0].
        rewrite Hy0 in Hy. rewrite Hv0 in Hv.
        rewrite !Htotal, Hye, Hve, <- Hyo', <- Hvo', <- Hy, <- Hv, Hyo, Hvo.
        split; ring.
    + assert (Hget : dict_get key2_eqb (Hist.content h) key = Some m).
      { rewrite Hm. cbn [dict_get]. rewrite (proj2 (key2_eqb_spec key key) eq_refl).
        reflexivity. }
      rewrite Hget in Hmatch. destruct Hmatch as [H1 H2].
      destruct (Hshape _ _ Hget) as [Hm1 Hm2].
      apply iadd_ok in H1 as (_ & Hl1 & Hn1). apply iadd_ok in H2 as (_ & Hl2 & Hn2).
      assert (Hy' : yields h key = Np.slice_1_m2 (fst m))
        by (unfold yields, Hist.cell; rewrite Hget; reflexivity).
      assert (Hv' : sumw2 h key = Np.slice_1_m2 (snd m))
        by (unfold sumw2, Hist.cell; rewrite Hget; reflexivity).
      split; [|split].
      * apply well_shaped_setitem; [exact Hshape | |]; congruence.
      * right. exists entry. cbn [Hist.with_content Hist.content]. rewrite Hm.
        cbn [setitem]. rewrite (proj2 (key2_eqb_spec key key) eq_refl). reflexivity.
      * intros b Hb. destruct (Hsum b Hb) as [Hy Hv]. destruct (Hsumo b Hb) as [Hyo Hvo].
        rewrite !Htotal, <- Hy, <- Hv, <- Hyo, <- Hvo.
        rewrite Hye, Hve, Hyo', Hvo', Hy', Hv'.
        rewrite !nth_slice_1_m2 by lia.
        rewrite Hn1, Hn2 by lia. split; reflexivity.
Qed.

(** The chunks after the second. *)
Lemma holds_sums_adding rest :
  forall acc A result,
  holds_sums var bins acc A ->
  for_each rest
    (fun acc item => out <- work_function (process eval_expr p) item ;; Acc.add acc out)
    acc = Ok result ->
  exists more,
    Forall2 (fun item a =>
               takes eval_expr item ch t a /\
               template_arrays eval_expr item ch t = Ok (taken_x a, taken_w a))
      rest more /\
    holds_sums var bins result (A ++ more).
Proof.
  induction rest as [|item rest IH]; intros acc A result Hacc H.
  - injection H as <-. exists []. split; [constructor|]. rewrite app_nil_r. exact Hacc.
  - cbn [for_each] in H. apply bind_ok in H as (acc' & Hstep & H).
    apply bind_ok in Hstep as (out & Hp & Hadd).
    apply work_function_ok in Hp.
    apply single_histogram_process in Hp as (a & Ha & Harr & Hout).
    pose proof (holds_sums_add Hacc Hout Hadd) as Hacc'.
    destruct (IH _ _ _ Hacc' H) as (more & Hmore & Hres).
    exists (a :: more). split; [constructor; [split|]; assumption|].
    rewrite <- app_assoc in Hres. exact Hres.
Qed.

(** All chunks of a job. *)
Lemma holds_sums_run items result :
  iterative_executor items (work_function (process eval_expr p)) None = Ok (Some result) ->
  exists fills,
    Forall2 (fun item a =>
               takes eval_expr item ch t a /\
               template_arrays eval_expr item ch t = Ok (taken_x a, taken_w a))
      items fills /\
    holds_sums var bins result fills.
Proof.
  unfold iterative_executor. destruct items as [|first rest]; [discriminate|].
  intro H. apply bind_ok in H as (accum & Hfirst & H).
  apply work_function_ok in Hfirst.
  apply single_histogram_process in Hfirst as (a1 & Ha1 & Harr1 & Haccum).
  destruct rest as [|second rest'].
  { injection H as <-. exists [a1].
    split; [constructor; [split; assumption | constructor] | exact Haccum]. }
  apply bind_ok in H as (out2 & Hsecond & H).
  apply work_function_ok in Hsecond.
  apply single_histogram_process in Hsecond as (a2 & Ha2 & Harr2 & Hout2).
  apply bind_ok in H as (accum' & Hplus & H).
  apply bind_ok in H as (accum'' & Hrest & H). injection H as <-.
  unfold Acc.plus in Hplus. apply bind_ok in Hplus as (ret & Hret & Hplus).
  pose proof (holds_sums_add (holds_sums_identity Haccum) Haccum Hret) as Hret'.
  pose proof (holds_sums_add Hret' Hout2 Hplus) as Haccum'.
  destruct (holds_sums_adding _ Haccum' Hrest) as (more & Hmore & Hres).
  exists (a1 :: a2 :: more).
  split; [constructor; [split; assumption|]; constructor; [split; assumption|];
          exact Hmore | exact Hres].
Qed.

End SingleHistogram.

(** ** Calls of build_single_histogram *)

Lemma total_counts (counts : list nat) :
  (total (map (fun n => inject_Z (Z.of_nat n)) counts) ==
   inject_Z (Z.of_nat (list_sum counts)))%Q.
Proof.
  unfold total. induction counts as [|n counts IH]; simpl; [reflexivity|].
  rewrite IH, Nat2Z.inj_add, inject_Z_plus. reflexivity.
Qed.

Section Calls.
Variable eval_expr : string -> list Row -> evaluated.
Variable backend_effect : Job -> World -> World.
Variable Path : Type.
Variable str : Path -> string.
Variable np_sqrt : Q -> Q.

(** What a call that returns has summed up. *)
Lemma build_single_histogram_sums ntuple_paths pos_in_file var bins wt flt w
    yields_out stdev_out :
  snd (build_single_histogram eval_expr backend_effect str np_sqrt ntuple_paths
         pos_in_file var bins wt flt w) = Ok (yields_out, stdev_out) ->
  exists items fills variance,
    work_items (storage w)
      [("generic_name"%string,
        {| treename := pos_in_file; files := map str ntuple_paths |})] = Ok items /\
    Forall2
      (fun item a =>
         takes eval_expr item (single_channel var bins) (single_template wt flt) a /\
         template_arrays eval_expr item (single_channel var bins) (single_template wt flt)
         = Ok (taken_x a, taken_w a))
      items fills /\
    stdev_out = map np_sqrt variance /\
    length yields_out = length bins - 1 /\
    length variance = length bins - 1 /\
    StronglySorted Qle bins /\
    forall b, S b < length bins ->
      (nth b yields_out 0 ==
       total (map (fun a => sumw_in_bin bins b (taken_x a) (taken_w a)) fills))%Q /\
      (nth b variance 0 ==
       total (map (fun a => sumw_in_bin bins b (taken_x a) (taken_w2 a)) fills))%Q.
Proof.
  intro H. apply build_single_histogram_ok in H as [(_ & _ & Hsorted & _) H].
  cbn [single_channel binning] in Hsorted.
  unfold read_single in H.
  apply bind_ok in H as (out & Hrun & H).
  apply bind_ok in H as (h & Hh & H).
  apply bind_ok in H as ([y v] & Hv & H). cbn [fst snd] in H.
  assert (Hy : yields_out = y) by congruence.
  assert (Hs : stdev_out = map np_sqrt v) by congruence.
  subst yields_out stdev_out. clear H.
  apply (@run_job_ok eval_expr (storage w)
           (single_histogram_job (map str ntuple_paths) pos_in_file var bins wt flt)
           out eq_refl) in Hrun as (items & Hitems & Hexec).
  cbn [single_histogram_job job_executor job_processor_instance job_fileset] in *.
  destruct (@holds_sums_run eval_expr var bins wt flt items out Hexec)
    as (fills & Hfills & (h0 & -> & Hid & Hshape & _ & Hsum)).
  assert (Hh0 : h = h0).
  { unfold getitem in Hh. cbn [dict_get] in Hh.
    rewrite String.eqb_refl in Hh. congruence. }
  subst h0.
  apply getitem_ok in Hv. apply values_lookup in Hv as [-> ->].
  assert (He : Hist.edges h = bins) by exact (f_equal Hist.edges Hid).
  destruct (@cell_shape h ("generic_name", "generic_template_name")%string Hshape)
    as [Hl1 Hl2].
  unfold Hist.size in Hl1, Hl2. rewrite He in Hl1, Hl2.
  exists items, fills, (sumw2 h ("generic_name", "generic_template_name")%string).
  split; [exact Hitems|]. split; [exact Hfills|]. split; [reflexivity|].
  split; [unfold yields; rewrite length_slice_1_m2, Hl1; lia|].
  split; [unfold sumw2; rewrite length_slice_1_m2, Hl2; lia|].
  split; [exact Hsorted | exact Hsum].
Qed.


(** X8.  A call without weight counts events: when it returns, the yield of
    every bin is the number of selected events, over all chunks of the
    files, whose observable lies in the bin, and the variance of a bin
    equals its yield; so what comes back beside the yields is the square
    root of an array equal, bin by bin, to the yields. *)
Theorem build_single_histogram_unweighted_counts ntuple_paths pos_in_file var bins flt w
    yields_out stdev_out :
  snd (build_single_histogram eval_expr backend_effect str np_sqrt ntuple_paths
         pos_in_file var bins None flt w) = Ok (yields_out, stdev_out) ->
  exists items arrays variance,
    work_items (storage w)
      [("generic_name"%string,
        {| treename := pos_in_file; files := map str ntuple_paths |})] = Ok items /\
    Forall2
      (fun item a =>
         template_arrays eval_expr item
           {| channel_name := "generic_channel_name"; variable := var;
              observable_label := "generic_label"; binning := bins |}
           {| template_name := "generic_template_name"; weight := None;
              selection_filter := flt |} = Ok a)
      items arrays /\
    stdev_out = map np_sqrt variance /\
    forall b, S b < length bins ->
      (nth b yields_out 0 ==
       inject_Z (Z.of_nat (list_sum (map (fun a => count_in_bin bins b (fst a)) arrays))))%Q /\
      (nth b variance 0 == nth b yields_out 0)%Q.
Proof.
  intro H.
  apply build_single_histogram_sums in H
    as (items & fills & variance & Hitems & Hfills & Hstdev & _ & _ & _ & Hsum).
  exists items, (map (fun a => (taken_x a, taken_w a)) fills), variance.
  split; [exact Hitems|].
  split.
  { clear -Hfills. induction Hfills as [|item a items fills [_ Ha] _ IH];
      [constructor|].
    cbn [map]. constructor; [exact Ha | exact IH]. }
  split; [exact Hstdev|].
  assert (Hones : Forall (fun a => taken_w a = Np.ones (length (taken_x a)) /\
                                   taken_w2 a = Np.ones (length (taken_x a))) fills).
  { clear -Hfills. induction Hfills as [|item a items fills [Ha _] _ IH]; constructor.
    - destruct Ha as (_ & _ & Hw). exact Hw.
    - exact IH. }
  intros b Hb. destruct (Hsum b Hb) as [Hy Hv].
  assert (Hcounts :
    (total (map (fun a => sumw_in_bin bins b (taken_x a) (taken_w a)) fills) ==
     inject_Z (Z.of_nat (list_sum (map (fun a => count_in_bin bins b (fst a))
                                     (map (fun a => (taken_x a, taken_w a)) fills)))))%Q).
  { rewrite <- total_counts, !map_map. cbn [fst]. apply total_ext.
    eapply Forall_impl; [|exact Hones].
    intros a [Ha _]. cbv beta. rewrite Ha. apply sumw_in_bin_ones. }
  split.
  - rewrite Hy. exact Hcounts.
  - rewrite Hv, Hy. apply total_ext.
    eapply Forall_impl; [|exact Hones].
    intros a [Ha Ha2]. cbv beta. rewrite Ha, Ha2. reflexivity.
Qed.

End Calls.

(** ** The constructor *)


(** ** What the notebook hands to the backend *)

Section Backend.
Variable eval_expr : string -> list Row -> evaluated.
Variable backend_effect : Job -> World -> World.
Variable Path : Type.
Variable str : Path -> string.
Variable np_sqrt : Q -> Q.
Variable format_array : list Q -> string.


(** C1, as amended.  A call of [build_single_histogram] whose axis
    [hist.Bin] accepts submits exactly one job, with one channel, one
    sample key "generic_name" and one template in its list, hence with one
    histogram-building instruction; a call for which the constructor raises
    submits no job and leaves the world as it was.  The example cell
    submits, whatever the world, one job that carries three instructions:
    one channel and three templates over two samples. *)
Theorem single_histogram_per_call_and_example_groups_three :
  (forall ntuple_paths pos_in_file variable bins weight selection_filter w,
     let call :=
       build_single_histogram eval_expr backend_effect str np_sqrt ntuple_paths
         pos_in_file variable bins weight selection_filter w in
     (accepts_axis (single_channel variable bins) ->
      exists job,
        submitted (fst call) = submitted w ++ [job] /\
        template_info (job_processor_instance job)
          = [("generic_name"%string, [single_template weight selection_filter])] /\
        channel_info (job_processor_instance job) = [single_channel variable bins] /\
        map fst (job_fileset job) = ["generic_name"%string] /\
        job_instructions job = 1) /\
     (forall e,
        MyProcessor_init (Some [single_channel variable bins])
          (Some [("generic_name"%string, [single_template weight selection_filter])])
        = Raise e ->
        fst call = w /\ snd call = Raise e)) /\
  (forall w,
     exists job,
       submitted (fst (example_run eval_expr backend_effect w)) = submitted w ++ [job] /\
       length (channel_info (job_processor_instance job)) = 1 /\
       map (fun kv => (fst kv, length (snd kv))) (template_info (job_processor_instance job))
         = [("signal"%string, 1); ("background"%string, 2)] /\
       job_instructions job = 3).
Proof.
  split.
  - intros paths pos var bins wt flt w call. subst call.
    rewrite build_single_histogram_eq. split.
    + intro Hacc. rewrite (single_processor_accepted wt flt Hacc). cbv zeta.
      eexists. split; [reflexivity|]. repeat split.
    + intros e Hinit. rewrite Hinit. split; reflexivity.
  - intro w. rewrite example_run_eq. cbn [fst].
    exists example_job. split; [reflexivity|]. repeat split.
Qed.


(** X6.  A call with an empty list of paths: the constructor makes the
    processor, the backend finds no chunk, and what comes back is the
    ValueError that coffea raises for a job without results; the subscripts
    on the result are not reached. *)
Theorem build_single_histogram_without_chunks pos_in_file variable bins weight
    selection_filter w :
  accepts_axis (single_channel variable bins) ->
  let call :=
    build_single_histogram eval_expr backend_effect str np_sqrt [] pos_in_file variable
      bins weight selection_filter w in
  snd call = Raise (Library "ValueError" "No chunks returned results") /\
  submitted (fst call) =
    submitted w ++ [single_histogram_job [] pos_in_file variable bins weight
                      selection_filter].
Proof.
  intros Hacc call. subst call. rewrite build_single_histogram_eq.
  rewrite (single_processor_accepted weight selection_filter Hacc). cbv zeta.
  split; reflexivity.
Qed.

End Backend.

(** ** The one raise statement *)

Section Raises.
Variable eval_expr : string -> list Row -> evaluated.
Variable backend_effect : Job -> World -> World.
Variable Path : Type.
Variable str : Path -> string.
Variable np_sqrt : Q -> Q.
Variable format_array : list Q -> string.

Lemma build_single_histogram_raise ntuple_paths pos_in_file var bins weight
    selection_filter w e :
  snd (build_single_histogram eval_expr backend_effect str np_sqrt ntuple_paths
         pos_in_file var bins weight selection_filter w) = Raise e ->
  (exists ch,
     Hist.Bin (variable ch) (observable_label ch) (binning ch) = Raise e) \/
  raised_in_job e \/ e = KeyError.
Proof.
  rewrite build_single_histogram_eq.
  destruct (MyProcessor_init _ _) as [p|e'|] eqn:Hinit; cbv zeta; cbn [snd];
    [|intro H|discriminate].
  - unfold read_single. intro H.
    apply bind_raise in H as [H | (out & _ & H)].
    { right; left. eapply run_job_raise; [|exact H]. reflexivity. }
    apply bind_raise in H as [H | (h & _ & H)].
    { apply getitem_raise in H. auto. }
    apply bind_raise in H as [H | (yv & _ & H)]; [|discriminate].
    apply getitem_raise in H. auto.
  - injection H as ->. apply MyProcessor_init_raise in Hinit as (ch & _ & Hbin).
    left. exists ch. exact Hbin.
Qed.

(** C3, as amended.  The guard of the constructor raises its ValueError
    exactly when [channel_info] or [template_info] is None.  With both
    given the constructor still raises, but only what [hist.Bin] raises for
    the axis of a channel: a ValueError or an IndexError of coffea.  The
    guard is the one [raise] statement of the notebook: what leaves the loop
    body of [process] is a TypeError of the interpreter (for [eval(None)],
    or for a keyword given twice), the exception of an evaluated expression,
    an exception of awkward or coffea, or the KeyError of the subscript on
    the output; [process] adds the KeyError of [template_info[dataset]]; a
    job raises an exception of uproot or coffea or the one coffea makes of
    what left [process]; [build_single_histogram] adds the exception of
    [hist.Bin] and the KeyError of its two subscripts, and the reading loop
    raises KeyError only. *)
Theorem MyProcessor_init_guard_is_the_only_raise :
  (forall ci ti, MyProcessor_init ci ti = Raise ValueError <-> ci = None \/ ti = None) /\
  (forall ci ti e,
     MyProcessor_init (Some ci) (Some ti) = Raise e ->
     exists ch,
       In ch ci /\
       Hist.Bin (variable ch) (observable_label ch) (binning ch) = Raise e /\
       exists what, e = Library "ValueError" what \/ e = Library "IndexError" what) /\
  (forall events ch out t e,
     process_template eval_expr events ch out t = Raise e ->
     (selection_filter t = None /\ e = TypeError) \/
     (exists class, e = Evaluated class) \/
     (exists class what, e = Library class what) \/
     (dict_get String.eqb out (channel_name ch) = None /\ e = KeyError) \/
     (In (variable ch) fill_keywords /\ e = TypeError)) /\
  (forall self events e,
     process eval_expr self events = Raise e ->
     (dict_get String.eqb (template_info self) (metadata_dataset events) = None /\
      e = KeyError) \/
     (exists ch t out,
        In ch (channel_info self) /\
        process_template eval_expr events ch out t = Raise e)) /\
  (forall store job e,
     job_executor job = iterative_executor ->
     run_job eval_expr store job = Raise e -> raised_in_job e) /\
  (forall ntuple_paths pos_in_file var bins weight selection_filter w e,
     snd (build_single_histogram eval_expr backend_effect str np_sqrt ntuple_paths
            pos_in_file var bins weight selection_filter w) = Raise e ->
     (exists ch,
        Hist.Bin (variable ch) (observable_label ch) (binning ch) = Raise e) \/
     raised_in_job e \/ e = KeyError) /\
  (forall w e,
     snd (example_run eval_expr backend_effect w) = Raise e -> raised_in_job e) /\
  (forall channel_info template_info result w e,
     snd (read_histograms np_sqrt format_array channel_info template_info result w)
       = Raise e ->
     e = KeyError).
Proof.
  assert (Hbin : forall ci ti e,
     MyProcessor_init (Some ci) (Some ti) = Raise e ->
     exists ch,
       In ch ci /\
       Hist.Bin (variable ch) (observable_label ch) (binning ch) = Raise e /\
       exists what, e = Library "ValueError" what \/ e = Library "IndexError" what).
  { intros ci ti e H. apply MyProcessor_init_raise in H as (ch & Hin & H).
    exists ch. split; [exact Hin|]. split; [exact H|].
    apply Bin_raise in H as [[_ ->] | [[_ ->] | [_ ->]]]; eauto. }
  split; [|split; [exact Hbin|split; [|split; [|split; [|split; [|split]]]]]].
  - intros [ci|] [ti|]; split; intro H; try reflexivity; auto.
    + exfalso. apply Hbin in H as (ch & _ & _ & what & [H | H]); discriminate H.
    + destruct H as [H|H]; discriminate H.
  - apply process_template_raise.
  - apply process_raise.
  - intros store job e Hexec H. exact (@run_job_raise eval_expr store job e Hexec H).
  - apply build_single_histogram_raise.
  - intros w e. rewrite example_run_eq. cbn [snd].
    intro H. eapply run_job_raise; [|exact H]. reflexivity.
  - intros ci ti result w e H. exact (read_histograms_raise _ _ _ _ _ _ H).
Qed.

End Raises.

(** ** Nothing is written *)

Section Frame.
Variable eval_expr : string -> list Row -> evaluated.
Variable backend_effect : Job -> World -> World.
Variable Path : Type.
Variable str : Path -> string.
Variable np_sqrt : Q -> Q.
Variable format_array : list Q -> string.


End Frame.

(** ** The selection filter has no None branch *)

Lemma Hist_fill_no_raise h dataset template n variable observables e :
  Hist.axis_name h = variable -> well_shaped h -> n = len observables ->
  Hist.fill h dataset template (Column Np.Float64 (Np.ones n)) variable observables
  <> Raise e.
Proof.
  intros Haxis Hshape -> H.
  destruct (cell_shape (dataset, template) Hshape) as [H1 H2].
  apply Hist_fill_raise in H as [[Hne _] | [[_ Hlen] | [_ [Hl | Hl]]]].
  - contradiction.
  - cbn [len] in Hlen. rewrite length_ones in Hlen. contradiction.
  - contradiction.
  - contradiction.
Qed.

Section Filter.
Variable eval_expr : string -> list Row -> evaluated.
Variable backend_effect : Job -> World -> World.
Variable Path : Type.
Variable str : Path -> string.
Variable np_sqrt : Q -> Q.

Lemma process_template_no_filter events ch out t :
  selection_filter t = None ->
  process_template eval_expr events ch out t = Raise TypeError.
Proof. unfold process_template. intros ->. reflexivity. Qed.

(** With weight None no weight expression is looked at: the fill is made
    with unit weights as soon as the filter and the variable evaluate. *)
Lemma process_template_unweighted events ch out t f v selected observables h :
  weight t = None ->
  selection_filter t = Some f ->
  eval_expr f (rows events) = Gives v ->
  events_getitem (rows events) v = Ok selected ->
  eval_expr (variable ch) selected = Gives observables ->
  dict_get String.eqb out (channel_name ch) = Some h ->
  ~ In (variable ch) fill_keywords ->
  process_template eval_expr events ch out t =
  (h' <- Hist.fill h (metadata_dataset events) (template_name t)
           (Column Np.Float64 (Np.ones (len observables))) (variable ch) observables ;;
   Ok (setitem String.eqb out (channel_name ch) h')).
Proof.
  intros Hw Hf Hv Hs Ho Hh Hk.
  unfold process_template, getitem, eval. rewrite Hf, Hw, Hv. cbn [bind].
  rewrite Hs. cbn [bind]. rewrite Ho. cbn [bind]. rewrite Hh. cbn [bind].
  destruct (existsb (String.eqb (variable ch)) fill_keywords) eqn:E; [|reflexivity].
  exfalso. apply existsb_exists in E as (k & Hin & E). apply String.eqb_eq in E.
  subst k. exact (Hk Hin).
Qed.

Lemma build_single_histogram_no_filter ntuple_paths pos_in_file variable bins weight w :
  is_ok (snd (build_single_histogram eval_expr backend_effect str np_sqrt ntuple_paths
                pos_in_file variable bins weight None w)) = false.
Proof.
  destruct (snd (build_single_histogram _ _ _ _ _ _ _ _ _ _ _)) as [r|e|] eqn:H;
    [|reflexivity|reflexivity].
  exfalso. apply build_single_histogram_ok in H as [_ H].
  unfold read_single in H. apply bind_ok in H as (out & Hrun & _).
  apply (@run_job_ok eval_expr (storage w)
           (single_histogram_job (map str ntuple_paths) pos_in_file variable bins
              weight None) out eq_refl) in Hrun as (items & _ & Hexec).
  cbn [single_histogram_job job_processor_instance] in Hexec.
  pose proof (@holds_sums_run eval_expr variable bins weight None items out Hexec)
    as (fills & Hfills & _).
  destruct Hfills as [|item a items fills [((f & v & Hf & _) & _) _] _].
  - discriminate Hexec.
  - discriminate Hf.
Qed.

(** C7.  [process] evaluates the selection filter of a template without
    looking whether it is None: the loop body raises TypeError for a
    template without filter, whatever its weight; so a pass that returns has
    found, in every template it visited (every template of the chunk's
    dataset, for every channel), a filter expression, and evaluating it has
    raised nothing.
    [build_single_histogram] passes its default None on and therefore never
    returns without a filter.  A weight of None, in contrast, is handled:
    no weight expression is evaluated, the fill is made with a weight of 1
    for every selected event, and it raises nothing. *)
Theorem selection_filter_has_no_None_branch :
  (forall events ch out t,
     selection_filter t = None ->
     process_template eval_expr events ch out t = Raise TypeError) /\
  (forall self events templates ch t out,
     dict_get String.eqb (template_info self) (metadata_dataset events) = Some templates ->
     In ch (channel_info self) -> In t templates ->
     process eval_expr self events = Ok out ->
     exists f,
       selection_filter t = Some f /\
       forall class, eval_expr f (rows events) <> Throws class) /\
  (forall ntuple_paths pos_in_file variable bins weight w,
     is_ok (snd (build_single_histogram eval_expr backend_effect str np_sqrt ntuple_paths
                   pos_in_file variable bins weight None w)) = false) /\
  (forall events ch out t f v selected observables h,
     weight t = None ->
     selection_filter t = Some f ->
     eval_expr f (rows events) = Gives v ->
     events_getitem (rows events) v = Ok selected ->
     eval_expr (variable ch) selected = Gives observables ->
     dict_get String.eqb out (channel_name ch) = Some h ->
     ~ In (variable ch) fill_keywords ->
     Hist.axis_name h = variable ch ->
     well_shaped h ->
     process_template eval_expr events ch out t =
       (h' <- Hist.fill h (metadata_dataset events) (template_name t)
                (Column Np.Float64 (Np.ones (len observables))) (variable ch)
                observables ;;
        Ok (setitem String.eqb out (channel_name ch) h')) /\
     forall e, process_template eval_expr events ch out t <> Raise e).
Proof.
  split; [|split; [|split]].
  - apply process_template_no_filter.
  - intros self events templates ch t out Hd Hch Ht H.
    destruct (process_visits_every_template _ _ _ _ _ Hd Hch Ht H) as (o1 & o2 & Ho).
    apply process_template_takes in Ho as (a & _ & _ & ((f & v & Hf & Hv & Hsel) & _) & _).
    exists f. split; [exact Hf|]. intros c Hc. rewrite Hv in Hc. discriminate Hc.
  - apply build_single_histogram_no_filter.
  - intros events ch out t f v selected observables h Hw Hf Hv Hs Ho Hh Hk Ha Hshape.
    pose proof (process_template_unweighted _ _ _ _ Hw Hf Hv Hs Ho Hh Hk) as Heq.
    split; [exact Heq|].
    intros e H. rewrite Heq in H.
    apply bind_raise in H as [H | (h' & _ & H)]; [|discriminate].
    exact (@Hist_fill_no_raise h _ _ _ _ observables e Ha Hshape eq_refl H).
Qed.

End Filter.

(** ** A variable that is called like a keyword of fill *)

Section ReservedNames.
Variable eval_expr : string -> list Row -> evaluated.

(** X5.  A channel whose variable is named like a keyword that the fill
    call already gives cannot be histogrammed.  "weight" is refused by the
    constructor, which makes no processor for it; for "dataset", "template"
    and "self" the constructor makes the processor, and the call
    [fill(dataset=..., template=..., weight=..., **{variable: observables})]
    then gets a keyword twice: [process] does not return for any chunk
    whose dataset has a template. *)
Theorem process_refuses_variable_named_like_keyword ci ti ch :
  In ch ci ->
  (variable ch = "weight"%string ->
   forall self, MyProcessor_init (Some ci) (Some ti) <> Ok self) /\
  (In (variable ch) ["dataset"; "template"; "self"]%string ->
   forall self events templates t,
     MyProcessor_init (Some ci) (Some ti) = Ok self ->
     dict_get String.eqb ti (metadata_dataset events) = Some templates ->
     In t templates ->
     forall out, process eval_expr self events <> Ok out).
Proof.
  intro Hch. split.
  - intros Hvar self Hinit. apply MyProcessor_init_ok in Hinit as [Hacc _].
    rewrite Forall_forall in Hacc. destruct (Hacc ch Hch) as [Hname _].
    contradiction.
  - intros Hvar self events templates t Hinit Hd Ht out H.
    pose proof (@MyProcessor_init_ok ci ti self Hinit) as [_ Hself].
    assert (Hci : channel_info self = ci) by (rewrite Hself; reflexivity).
    assert (Hti : template_info self = ti) by (rewrite Hself; reflexivity).
    rewrite <- Hti in Hd. rewrite <- Hci in Hch.
    destruct (process_visits_every_template _ _ _ _ _ Hd Hch Ht H) as (o1 & o2 & Hstep).
    apply process_template_inv in Hstep
      as (_ & _ & _ & _ & _ & _ & _ & _ & _ & _ & _ & Hk & _).
    assert (Htrue : existsb (String.eqb (variable ch)) fill_keywords = true).
    { apply existsb_exists. exists (variable ch). split; [|apply String.eqb_refl].
      destruct Hvar as [<- | [<- | [<- | []]]]; cbn; auto. }
    congruence.
Qed.

End ReservedNames.

(** ** When a pass raises nothing *)

Section Returns.
Variable eval_expr : string -> list Row -> evaluated.






End Returns.

(** * The statements on the small world *)



Lemma demo_axis_accepted : accepts_axis (single_channel "jet_pt" Demo.bins).
Proof.
  split; [discriminate|]. split; [repeat constructor|].
  split; [apply sorted_StronglySorted; reflexivity | discriminate].
Qed.

(** C1, as stated, fails on the example cell: its one job carries three
    histogram-building instructions. *)
Lemma example_job_carries_three_instructions :
  ~ one_instruction_per_job
      (fst (example_run Demo.eval_expr Demo.backend_effect Demo.world)).
Proof.
  intro H.
  assert (Hin : In example_job
                  (submitted (fst (example_run Demo.eval_expr Demo.backend_effect
                                     Demo.world)))).
  { rewrite example_run_eq. cbn [fst after_job submitted].
    apply in_or_app. right. left. reflexivity. }
  specialize (H _ Hin). vm_compute in H. discriminate.
Qed.

(** C3, as stated, fails where both arguments are given and a binning is
    not sorted: the constructor raises a ValueError, that of [hist.Bin]. *)
Lemma constructor_raises_ValueError_for_unsorted_bins : ~ ValueError_iff_None.
Proof.
  intro H.
  destruct (proj1 (H (Some [Demo.unsorted_channel]) (Some [])))
    as [E | E]; [|discriminate E|discriminate E].
  exists (Library "ValueError" "Binning not sorted!").
  split; [vm_compute; reflexivity | reflexivity].
Qed.







(** ** The further properties on the small world *)



(** Histogramming the branch "dataset": the constructor makes the
    processor, and the pass ends in a TypeError. *)
Lemma process_refuses_variable_named_like_keyword_demo :
  In Demo.dataset_channel [Demo.dataset_channel] /\
  (exists self,
     MyProcessor_init (Some [Demo.dataset_channel])
       (Some [("generic_name"%string, [Demo.unweighted])]) = Ok self /\
     process Demo.eval_expr self Demo.events1 = Raise TypeError) /\
  (variable Demo.dataset_channel = "weight"%string ->
   forall self,
     MyProcessor_init (Some [Demo.dataset_channel])
       (Some [("generic_name"%string, [Demo.unweighted])]) <> Ok self) /\
  (In (variable Demo.dataset_channel) ["dataset"; "template"; "self"]%string ->
   forall self events templates t,
     MyProcessor_init (Some [Demo.dataset_channel])
       (Some [("generic_name"%string, [Demo.unweighted])]) = Ok self ->
     dict_get String.eqb [("generic_name"%string, [Demo.unweighted])]
       (metadata_dataset events) = Some templates ->
     In t templates ->
     forall out, process Demo.eval_expr self events <> Ok out).
Proof.
  split; [left; reflexivity|].
  split; [eexists; split; vm_compute; reflexivity|].
  apply (@process_refuses_variable_named_like_keyword Demo.eval_expr
           [Demo.dataset_channel] [("generic_name"%string, [Demo.unweighted])]
           Demo.dataset_channel).
  left. reflexivity.
Defined.

(** A call without paths on the small world. *)
Lemma build_single_histogram_without_chunks_demo :
  accepts_axis (single_channel "jet_pt" Demo.bins) /\
  let call :=
    build_single_histogram Demo.eval_expr Demo.backend_effect Demo.str Demo.np_sqrt []
      "background" "jet_pt" Demo.bins None (Some "lep_charge == 1"%string) Demo.world in
  snd call = Raise (Library "ValueError" "No chunks returned results") /\
  submitted (fst call) =
    submitted Demo.world ++
    [single_histogram_job [] "background" "jet_pt" Demo.bins None
       (Some "lep_charge == 1"%string)].
Proof.
  split; [exact demo_axis_accepted|].
  apply (@build_single_histogram_without_chunks Demo.eval_expr Demo.backend_effect string
           Demo.str Demo.np_sqrt "background"%string "jet_pt"%string Demo.bins None
           (Some "lep_charge == 1"%string) Demo.world).
  exact demo_axis_accepted.
Defined.

(** An unweighted histogram over the two demo chunks: two, one, one and no
    selected events in the four bins. *)
Lemma build_single_histogram_unweighted_counts_demo :
  let call :=
    build_single_histogram Demo.eval_expr Demo.backend_effect Demo.str Demo.np_sqrt
      ["ntuples/prediction.root"%string] "background" "jet_pt" Demo.bins
      None (Some "lep_charge == 1"%string) Demo.world in
  snd call = Ok ([2; 1; 1; 0]%Q, [1; 1; 1; 0]%Q) /\
  exists items arrays variance,
    work_items (storage Demo.world)
      [("generic_name"%string,
        {| treename := "background";
           files := map Demo.str ["ntuples/prediction.root"%string] |})] = Ok items /\
    Forall2
      (fun item a =>
         template_arrays Demo.eval_expr item
           {| channel_name := "generic_channel_name"; variable := "jet_pt";
              observable_label := "generic_label"; binning := Demo.bins |}
           {| template_name := "generic_template_name"; weight := None;
              selection_filter := Some "lep_charge == 1"%string |} = Ok a)
      items arrays /\
    [1; 1; 1; 0]%Q = map Demo.np_sqrt variance /\
    forall b, S b < length Demo.bins ->
      (nth b [2; 1; 1; 0] 0 ==
       inject_Z (Z.of_nat (list_sum (map (fun a => count_in_bin Demo.bins b (fst a))
                                       arrays))))%Q /\
      (nth b variance 0 == nth b [2; 1; 1; 0] 0)%Q.
Proof.
  split; [vm_compute; reflexivity|].
  apply (@build_single_histogram_unweighted_counts Demo.eval_expr Demo.backend_effect
           string Demo.str Demo.np_sqrt
           ["ntuples/prediction.root"%string] "background"%string "jet_pt"%string
           Demo.bins (Some "lep_charge == 1"%string) Demo.world).
  vm_compute; reflexivity.
Defined.




(** The demo channel followed by one of the same name on another branch:
    the fill of "jet_pt" is refused. *)
Lemma process_refuses_shared_name_with_other_variable_demo :
  exists self,
    MyProcessor_init (Some [Demo.channel; Demo.charge_channel])
      (Some [("generic_name"%string, [Demo.unweighted])]) = Ok self /\
    process Demo.eval_expr self Demo.events1
    = Raise (Library "ValueError" "Not all axes specified") /\
    forall out, process Demo.eval_expr self Demo.events1 <> Ok out.
Proof.
  eexists. split; [vm_compute; reflexivity|]. split; [vm_compute; reflexivity|].
  eapply (@process_refuses_shared_name_with_other_variable Demo.eval_expr
           [Demo.channel; Demo.charge_channel]
           [("generic_name"%string, [Demo.unweighted])] _ Demo.events1
           [Demo.unweighted] Demo.channel Demo.charge_channel Demo.unweighted);
    [vm_compute; reflexivity | reflexivity | left; reflexivity | left; reflexivity
    | reflexivity | intro Hv; discriminate Hv].
Defined.


